(** * ktDNS: the DNS message codec and the zone resolver

    A shallow embedding of [ktDNS.py]: the static methods of [Handler]
    ([build_flags], [get_domain_and_QTYPE], [get_records], [build_answers],
    [build_queries], [build_header], [build_response]) and
    [Zone.get_zone_by_domain], followed by the properties of the codec.

    Data model.
    - A Python [bytes] value is a [list Z]; iterating it yields the integers
      0..255, so the bit tests of the source are [Z.land] and [Z.shiftl].
    - A Python [str] is a [string]; [chr] of a byte and [ord] of a character
      are the conversions between [Z] and [ascii].
    - The zone table (a dict from origin names to zones) is a
      [gmap string (gmap string (list Record))]: a zone maps a record-type
      tag to its records.  The ['$origin'] entry of a zone file is a string,
      and no lookup of the source ever asks for it (the tag is ['a'] or ['']),
      so it is not part of a zone here.
    - An exception is a value of [PyError]; a function that can raise
      returns a [result]. *)

From Stdlib Require Import ZArith List String Ascii Lia DecimalString.
From stdpp Require Import base option list gmap strings.

Import ListNotations.
Local Open Scope string_scope.
Local Open Scope list_scope.
Local Open Scope Z_scope.

(** ** Exceptions *)

Inductive PyError : Type :=
  | KeyError
  | ValueError
  | OverflowError
  | TypeError.

Inductive result (A : Type) : Type :=
  | OK (a : A)
  | Raise (e : PyError).

Arguments OK {A} a.
Arguments Raise {A} e.

#[global] Instance PyError_eq_dec : EqDecision PyError.
Proof. solve_decision. Defined.

#[global] Instance result_eq_dec {A : Type} `{EqDecision A} :
  EqDecision (result A).
Proof. solve_decision. Defined.

Definition bind {A B : Type} (r : result A) (k : A -> result B) : result B :=
  match r with
  | OK a => k a
  | Raise e => Raise e
  end.

Notation "'try!' x ':=' r 'in' k" := (bind r (fun x => k))
  (at level 10, x pattern, r at level 100, k at level 200).

Definition is_byte (b : Z) : Prop := 0 <= b < 256.

(** ** Python primitives used by the handler *)

Module Py.

(** [bytes[a:b]] for in-range, non-negative [a <= b]; a slice never raises. *)
Definition slice {A : Type} (l : list A) (a b : nat) : list A :=
  firstn (b - a) (skipn a l).

Definition chr (b : Z) : ascii := ascii_of_N (Z.to_N b).

Definition ord (c : ascii) : Z := Z.of_N (N_of_ascii c).

(** [len(s)] *)
Definition len (s : string) : Z := Z.of_nat (String.length s).

(** [str(n)] for an integer. *)
Definition str (n : Z) : string := NilZero.string_of_int (Z.to_int n).

(** The big-endian digits of [n] in base 256, [k] of them. *)
Fixpoint be_bytes (k : nat) (n : Z) : list Z :=
  match k with
  | O => []
  | S k' => Z.land (Z.shiftr n (8 * Z.of_nat k')) 255 :: be_bytes k' n
  end.

(** [n.to_bytes(k, byteorder='big')]: unsigned, [OverflowError] when [n] is
    negative or does not fit in [k] bytes. *)
Definition to_bytes (n : Z) (k : nat) : result (list Z) :=
  if n <? 0 then Raise OverflowError
  else if 256 ^ Z.of_nat k <=? n then Raise OverflowError
  else OK (be_bytes k n).

(** [int.from_bytes(l, byteorder='big')], the reading of a header field. *)
Definition from_bytes (l : list Z) : Z :=
  fold_left (fun acc b => acc * 256 + b) l 0.

Definition digit_val (c : ascii) : option Z :=
  let n := ord c in
  if (48 <=? n) && (n <=? 57) then Some (n - 48) else None.

(** The digits of an integer literal in base [base], with Python's single
    underscores between digits; [acc] is the value read so far and [sep]
    tells whether the previous character was an underscore. *)
Fixpoint digits (base : Z) (s : string) (acc : Z) (sep : bool) : option Z :=
  match s with
  | EmptyString => if sep then None else Some acc
  | String c s' =>
      if Ascii.eqb c "_"%char then
        if sep then None else digits base s' acc true
      else
        match digit_val c with
        | Some d => if d <? base then digits base s' (acc * base + d) false
                    else None
        | None => None
        end
  end.

(** The characters [int] strips from both ends of its argument. *)
Definition is_space (c : ascii) : bool :=
  let n := ord c in
  ((9 <=? n) && (n <=? 13)) || (n =? 32) || (n =? 133) || (n =? 160).

Fixpoint lstrip (s : string) : string :=
  match s with
  | String c s' => if is_space c then lstrip s' else s
  | EmptyString => EmptyString
  end.

Fixpoint rstrip (s : string) : string :=
  match s with
  | String c s' =>
      match rstrip s' with
      | EmptyString => if is_space c then EmptyString else String c EmptyString
      | r => String c r
      end
  | EmptyString => EmptyString
  end.

(** [int(s, base)] on a string, for the bases 2 and 10 without a prefix:
    surrounding white space, an optional sign, then digits.  Anything else
    is a [ValueError].  (The handler calls it in base 2 on a string that
    starts with the digit 1, so the [0b] prefix never occurs.) *)
Definition int_of_str (s : string) (base : Z) : result Z :=
  let body (t : string) : option Z :=
    match t with
    | EmptyString => None
    | String c _ => if Ascii.eqb c "_"%char then None else digits base t 0 false
    end in
  let signed :=
    match rstrip (lstrip s) with
    | String "-"%char t => option_map Z.opp (body t)
    | String "+"%char t => body t
    | t => body t
    end in
  match signed with
  | Some n => OK n
  | None => Raise ValueError
  end.

(** [s.split(sep)] for a one-character separator: every occurrence cuts, and
    the result is never empty. *)
Fixpoint split (sep : ascii) (s : string) : list string :=
  match s with
  | EmptyString => [EmptyString]
  | String c s' =>
      if Ascii.eqb c sep then EmptyString :: split sep s'
      else match split sep s' with
           | w :: ws => String c w :: ws
           | [] => [String c EmptyString]
           end
  end.

(** [sep.join(l)] *)
Fixpoint join (sep : string) (l : list string) : string :=
  match l with
  | [] => EmptyString
  | [s] => s
  | s :: l' => (s ++ sep ++ join sep l')%string
  end.

End Py.

(** ** Zone data *)

(** One entry of a zone's record list: [{"ttl": ..., "value": ...}], with a
    JSON integer for [ttl], on which [int] is the identity, and a string of
    characters below 256 for [value]. *)
Record Record_ : Type := mkRecord {
  ttl : Z;
  value : string
}.

(** [d[k]] on a dict: [KeyError] when the key is absent. *)
Definition getitem {V : Type} (d : gmap string V) (k : string) : result V :=
  match d !! k with
  | Some v => OK v
  | None => Raise KeyError
  end.

Module Zone.

(** [Zone.get_zone_by_domain]: the bare [except] turns the failed lookup
    into the empty dict, and [finally] returns it. *)
Definition get_zone_by_domain
    (zones : gmap string (gmap string (list Record_)))
    (domain : list string) : gmap string (list Record_) :=
  let zone_name := Py.join "." domain in
  match getitem zones zone_name with
  | OK zone => zone
  | Raise _ => ∅
  end.

End Zone.

(** ** The request handler *)

Module Handler.

(** [ord(b)] on a [bytes] value: defined on length 1 only. *)
Definition ord_bytes (b : list Z) : result Z :=
  match b with
  | [x] => OK x
  | _ => Raise TypeError
  end.

(** [Handler.build_flags] *)
Definition build_flags (flags : list Z) : result (list Z) :=
  let byte1 := Py.slice flags 0 1 in
  let byte2 := Py.slice flags 1 2 in
  let QR := "1" in
  try! OPCODE :=
    fold_left
      (fun acc bit =>
         try! OPCODE := acc in
         try! b := ord_bytes byte1 in
         OK (OPCODE ++ Py.str (Z.land b (Z.shiftl 1 bit)))%string)
      [1; 2; 3; 4] (OK "") in
  let AA := "1" in
  let TC := "0" in
  let RD := "0" in
  let RA := "0" in
  let Z_ := "000" in
  let RCODE := "0000" in
  try! hi := Py.int_of_str (QR ++ OPCODE ++ AA ++ TC ++ RD)%string 2 in
  try! hi_byte := Py.to_bytes hi 1 in
  try! lo := Py.int_of_str (RA ++ Z_ ++ RCODE)%string 2 in
  try! lo_byte := Py.to_bytes lo 1 in
  OK (hi_byte ++ lo_byte).

(** The local variables of the loop of [get_domain_and_QTYPE]. *)
Record decoder : Type := mkDecoder {
  domain : list string;
  domain_string : string;
  char_count : Z;
  QNAME_length : Z;
  is_appended : Z;
  expected_length : Z
}.

Definition decoder_init : decoder :=
  mkDecoder [] "" 0 0 0 0.

(** The [for byte in data] loop; the [break] returns without the increment
    of [QNAME_length] that ends the loop body. *)
Fixpoint decode_loop (data : list Z) (st : decoder) : decoder :=
  match data with
  | [] => st
  | byte :: rest =>
      let '(mkDecoder dom dstr cc qlen app exp) := st in
      if app =? 1 then
        let dstr := if negb (byte =? 0)
                    then (dstr ++ String (Py.chr byte) "")%string else dstr in
        let cc := cc + 1 in
        let '(dom, dstr, cc, app) :=
          if cc =? exp then (dom ++ [dstr], "", 0, 0)
          else (dom, dstr, cc, app) in
        if byte =? 0 then mkDecoder (dom ++ [dstr]) dstr cc qlen app exp
        else decode_loop rest (mkDecoder dom dstr cc (qlen + 1) app exp)
      else
        decode_loop rest (mkDecoder dom dstr cc (qlen + 1) 1 byte)
  end.

(** [Handler.get_domain_and_QTYPE] *)
Definition get_domain_and_QTYPE (data : list Z) : list string * list Z :=
  let st := decode_loop data decoder_init in
  let n := Z.to_nat (QNAME_length st) in
  let QTYPE := Py.slice data n (n + 2) in
  (domain st, QTYPE).

(** [Handler.get_records] *)
Definition get_records (data : list Z)
    (zones : gmap string (gmap string (list Record_)))
  : result (list Record_ * string * list string * string) :=
  let '(domain, QTYPE) := get_domain_and_QTYPE data in
  let qclass := "IN" in
  let qtype := "" in
  try! one := Py.to_bytes 1 2 in
  let qtype := if decide (QTYPE = one) then "a" else qtype in
  let zone := Zone.get_zone_by_domain zones domain in
  try! records := getitem zone qtype in
  OK (records, qtype, domain, qclass).

(** The inner loop of [build_answers]:
    [for part in record['value'].split('.')]. *)
Fixpoint address_bytes (parts : list string) : result (list Z) :=
  match parts with
  | [] => OK []
  | part :: rest =>
      try! n := Py.int_of_str part 10 in
      try! b := Py.to_bytes n 1 in
      try! bs := address_bytes rest in
      OK (b ++ bs)
  end.

(** The bytes that one iteration of the loop of [build_answers] appends to
    [Answers]: one answer block. *)
Definition answer_block (record : Record_) (qtype qclass : string)
  : result (list Z) :=
  let pointer := [192; 12] in
  try! type_ := if String.eqb qtype "a" then Py.to_bytes 1 2 else OK [] in
  try! class_ := if String.eqb qclass "IN" then Py.to_bytes 1 2 else OK [] in
  try! ttl_ := Py.to_bytes (ttl record) 4 in
  try! rdata :=
    if String.eqb qtype "a" then
      try! rdlength := Py.to_bytes 4 2 in
      try! address := address_bytes (Py.split "." (value record)) in
      OK (rdlength ++ address)
    else OK [] in
  OK (pointer ++ type_ ++ class_ ++ ttl_ ++ rdata).

Fixpoint answers_loop (records : list Record_) (qtype qclass : string)
    (Answers : list Z) : result (list Z) :=
  match records with
  | [] => OK Answers
  | record :: rest =>
      try! block := answer_block record qtype qclass in
      answers_loop rest qtype qclass (Answers ++ block)
  end.

(** [Handler.build_answers] *)
Definition build_answers (records : list Record_) (qtype qclass : string)
  : result (list Z) :=
  answers_loop records qtype qclass [].

(** The inner loop of [build_queries]: [for char in part]. *)
Fixpoint chars_bytes (part : string) : result (list Z) :=
  match part with
  | EmptyString => OK []
  | String char rest =>
      try! b := Py.to_bytes (Py.ord char) 1 in
      try! bs := chars_bytes rest in
      OK (b ++ bs)
  end.

(** The name part of [build_queries]: [for part in domain]. *)
Fixpoint name_loop (domain : list string) (Queries : list Z)
  : result (list Z) :=
  match domain with
  | [] => OK Queries
  | part :: rest =>
      try! l := Py.to_bytes (Py.len part) 1 in
      try! cs := chars_bytes part in
      name_loop rest (Queries ++ l ++ cs)
  end.

(** [Handler.build_queries] *)
Definition build_queries (domain : list string) (qtype : string)
  : result (list Z) :=
  try! Queries := name_loop domain [] in
  try! type_ := if String.eqb qtype "a" then Py.to_bytes 1 2 else OK [] in
  try! class_ := Py.to_bytes 1 2 in
  OK (Queries ++ type_ ++ class_).

(** [Handler.build_header] *)
Definition build_header (data : list Z) (records : list Record_)
  : result (list Z) :=
  let Transaction_ID := Py.slice data 0 2 in
  try! Flags := build_flags (Py.slice data 2 4) in
  try! QDCOUNT := Py.to_bytes 1 2 in
  try! ANCOUNT := Py.to_bytes (Z.of_nat (length records)) 2 in
  try! NSCOUNT := Py.to_bytes 0 2 in
  try! ARCOUNT := Py.to_bytes 0 2 in
  OK (Transaction_ID ++ Flags ++ QDCOUNT ++ ANCOUNT ++ NSCOUNT ++ ARCOUNT).

(** [Handler.build_response], with the global zone table as a parameter. *)
Definition build_response (data : list Z)
    (zones : gmap string (gmap string (list Record_)))
  : result (list Z) :=
  try! (records, qtype, domain, qclass) :=
    get_records (skipn 12 data) zones in
  try! DNS_header := build_header data records in
  try! Queries := build_queries domain qtype in
  try! Answers := build_answers records qtype qclass in
  OK (DNS_header ++ Queries ++ Answers).

End Handler.

Definition example_com : list Z :=
  [7; 101; 120; 97; 109; 112; 108; 101; 3; 99; 111; 109; 0].

Definition example_zones : gmap string (gmap string (list Record_)) :=
  {[ "example.com." := {[ "a" := [mkRecord 60 "10.0.0.1"] ]} ]}.

(** The 12 header bytes of a standard query: id 0xABCD, flags 0x0100 (RD),
    one question. *)
Definition query_header : list Z :=
  [171; 205; 1; 0; 0; 1; 0; 0; 0; 0; 0; 0].

(** The name [nosuch.com] on the wire. *)
Definition nosuch_com : list Z :=
  [6; 110; 111; 115; 117; 99; 104; 3; 99; 111; 109; 0].

(** The header fields of a message, read as big-endian integers. *)
Definition QDCOUNT_of (msg : list Z) : Z := Py.from_bytes (Py.slice msg 4 6).

Definition ANCOUNT_of (msg : list Z) : Z := Py.from_bytes (Py.slice msg 6 8).

(** The opcode field of the first flags byte: bits 3 to 6. *)
Definition opcode_of (byte1 : Z) : Z := Z.land (Z.shiftr byte1 3) 15.

Definition ends_with_dot (s : string) : Prop :=
  exists p : string, s = (p ++ ".")%string.

(** ** The wire format of a question name

    The input format the properties of the decoder quantify over: a label is
    its length byte followed by its bytes, a name is its labels followed by
    the zero byte. *)

Definition wire_label (l : list Z) : list Z := Z.of_nat (length l) :: l.

Definition wire_labels (labels : list (list Z)) : list Z :=
  concat (map wire_label labels).

Definition qname_wire (labels : list (list Z)) : list Z :=
  wire_labels labels ++ [0].

(** The string the decoder builds from the bytes of a label. *)
Fixpoint label_str (l : list Z) : string :=
  match l with
  | [] => EmptyString
  | b :: l' => String (Py.chr b) (label_str l')
  end.

(** A label of 1 to 255 bytes, none of them zero. *)
Definition plain_label (l : list Z) : Prop :=
  (1 <= length l <= 255)%nat /\ Forall (fun b => 1 <= b < 256) l.

(** A label as the wire format allows it: 1 to 255 bytes. *)
Definition wire_ok_label (l : list Z) : Prop :=
  (1 <= length l <= 255)%nat /\ Forall is_byte l.

(** The round trip of a name: the name part that [build_queries] writes for
    the labels decoded from the name followed by [rest] is the name. *)
Definition name_roundtrip (labels : list (list Z)) (rest : list Z) : Prop :=
  Handler.name_loop
    (fst (Handler.get_domain_and_QTYPE (qname_wire labels ++ rest))) [] =
  OK (qname_wire labels).

(** A buffer that ends inside a label: whole labels, then a length byte
    that claims more bytes than remain. *)
Definition truncated_mid_label (data : list Z) : Prop :=
  exists (labels : list (list Z)) (L : Z) (partial : list Z),
    Forall wire_ok_label labels /\ Forall is_byte partial /\
    data = wire_labels labels ++ L :: partial /\
    Z.of_nat (length partial) < L < 256.

(** ** Zone files *)

(** What [json.load] gives for a zone file: the string under ['$origin'],
    if the file has one, and the record lists under the record-type tags. *)
Record ZoneData : Type := mkZoneData {
  origin : option string;
  rrsets : gmap string (list Record_)
}.

Section ZoneFiles.

(** The file system: what [open] and [json.load] give for the zone file at
    a path, for files that open and parse as a JSON object. *)
Variable read_json : string -> ZoneData.

(** The loop of [Zone.load_zone_data]: [zone_data['$origin']] raises
    [KeyError] for a file without origin, and a later file replaces an
    earlier one of the same origin. *)
Fixpoint load_loop (zone_files : list string)
    (json_zone : gmap string (gmap string (list Record_)))
  : result (gmap string (gmap string (list Record_))) :=
  match zone_files with
  | [] => OK json_zone
  | zone :: rest =>
      let zone_data := read_json zone in
      try! zone_name :=
        match origin zone_data with
        | Some name => OK name
        | None => Raise KeyError
        end in
      load_loop rest (<[zone_name := rrsets zone_data]> json_zone)
  end.

(** [Zone.load_zone_data] *)
Definition load_zone_data (zone_files : list string)
  : result (gmap string (gmap string (list Record_))) :=
  load_loop zone_files ∅.

End ZoneFiles.

(** A directory of three zone files: two for the origin [example.com.] and
    one without origin. *)
Definition example_fs (path : string) : ZoneData :=
  if String.eqb path "zones/a.zone" then
    mkZoneData (Some "example.com.") {[ "a" := [mkRecord 60 "10.0.0.1"] ]}
  else if String.eqb path "zones/b.zone" then
    mkZoneData (Some "example.com.") {[ "a" := [mkRecord 30 "10.0.0.2"] ]}
  else mkZoneData None ∅.

(** ** Strings as bytes *)

(** The code points of a string, as [ord] gives them. *)
Fixpoint str_bytes (s : string) : list Z :=
  match s with
  | EmptyString => []
  | String c s' => Py.ord c :: str_bytes s'
  end.

(** A label as a string: 1 to 255 characters, none of them NUL. *)
Definition plain_part (s : string) : Prop :=
  (1 <= String.length s <= 255)%nat /\ Forall (fun b => b <> 0) (str_bytes s).

Definition nul_free (s : string) : Prop :=
  Forall (fun b => b <> 0) (str_bytes s).

(** A label of 256 characters. *)
Definition label_256 : string := label_str (repeat 120 256).

(** No character of the string is a dot. *)
Fixpoint no_dot (s : string) : bool :=
  match s with
  | EmptyString => true
  | String c s' => negb (Ascii.eqb c ".") && no_dot s'
  end.

(** The dotted form of four numbers, as a zone file writes an address. *)
Definition dotted_quad (a b c d : Z) : string :=
  (Py.str a ++ "." ++ Py.str b ++ "." ++ Py.str c ++ "." ++ Py.str d)%string.

(** ** Facts about the primitives *)

Example str_16 : Py.str 16 = "16".
Proof. reflexivity. Qed.

Example int_of_str_ok : Py.int_of_str " +1_0 " 10 = OK 10.
Proof. reflexivity. Qed.

Example int_of_str_bad : Py.int_of_str "10080100" 2 = Raise ValueError.
Proof. reflexivity. Qed.

Example to_bytes_300 : Py.to_bytes 300 4 = OK [0; 0; 1; 44].
Proof. reflexivity. Qed.

Example to_bytes_256 : Py.to_bytes 256 1 = Raise OverflowError.
Proof. reflexivity. Qed.

Example split_quad : Py.split "."%char "10.0.0.1" = ["10"; "0"; "0"; "1"].
Proof. reflexivity. Qed.

Example join_dots : Py.join "." ["example"; "com"; ""] = "example.com.".
Proof. reflexivity. Qed.

Lemma to_bytes_ok (n : Z) (k : nat) :
  0 <= n < 256 ^ Z.of_nat k -> Py.to_bytes n k = OK (Py.be_bytes k n).
Proof.
  intros [Hlo Hhi]. unfold Py.to_bytes.
  destruct (Z.ltb_spec n 0) as [?|_]; [lia|].
  destruct (Z.leb_spec (256 ^ Z.of_nat k) n) as [?|_]; [lia|reflexivity].
Qed.

Lemma to_bytes_inv (n : Z) (k : nat) (l : list Z) :
  Py.to_bytes n k = OK l -> 0 <= n < 256 ^ Z.of_nat k /\ l = Py.be_bytes k n.
Proof.
  unfold Py.to_bytes.
  destruct (Z.ltb_spec n 0); [discriminate|].
  destruct (Z.leb_spec (256 ^ Z.of_nat k) n); [discriminate|].
  intros [= <-]. auto.
Qed.

Lemma be_bytes_length (k : nat) (n : Z) : length (Py.be_bytes k n) = k.
Proof. induction k as [|k IH]; simpl; [reflexivity | now rewrite IH]. Qed.

Lemma to_bytes_length (n : Z) (k : nat) (l : list Z) :
  Py.to_bytes n k = OK l -> length l = k.
Proof.
  intros H. apply to_bytes_inv in H as [_ ->]. apply be_bytes_length.
Qed.

Lemma to_bytes_byte (n : Z) : 0 <= n < 256 -> Py.to_bytes n 1 = OK [n].
Proof.
  intros Hn. rewrite to_bytes_ok by (simpl; lia). simpl.
  rewrite Z.shiftr_0_r. change 255 with (Z.ones 8).
  rewrite Z.land_ones by lia. change (2 ^ 8) with 256.
  now rewrite Z.mod_small by lia.
Qed.

Lemma ord_chr (b : Z) : 0 <= b < 256 -> Py.ord (Py.chr b) = b.
Proof.
  intros Hb. unfold Py.ord, Py.chr.
  rewrite N_ascii_embedding by lia. lia.
Qed.

Lemma from_bytes_be2 (n : Z) :
  0 <= n < 65536 -> Py.from_bytes (Py.be_bytes 2 n) = n.
Proof.
  intros Hn. unfold Py.from_bytes. simpl.
  rewrite Z.shiftr_0_r. change 255 with (Z.ones 8).
  rewrite !Z.land_ones by lia. rewrite Z.shiftr_div_pow2 by lia.
  change (2 ^ 8) with 256.
  rewrite (Z.mod_small (n / 256)) by (split; [apply Z.div_pos; lia | apply Z.div_lt_upper_bound; lia]).
  pose proof (Z.div_mod n 256). lia.
Qed.

Lemma str_app_nil_l (s : string) : ("" ++ s)%string = s.
Proof. reflexivity. Qed.

Lemma str_app_cons (c : ascii) (s t : string) :
  (String c s ++ t)%string = String c (s ++ t).
Proof. reflexivity. Qed.

Lemma str_app_nil_r (s : string) : (s ++ "")%string = s.
Proof.
  induction s as [|c s IH]; [reflexivity|].
  now rewrite str_app_cons, IH.
Qed.

Lemma str_app_assoc (s1 s2 s3 : string) :
  ((s1 ++ s2) ++ s3)%string = (s1 ++ s2 ++ s3)%string.
Proof.
  induction s1 as [|c s1 IH]; [reflexivity|].
  now rewrite !str_app_cons, IH.
Qed.

Lemma label_str_length (l : list Z) : String.length (label_str l) = length l.
Proof. induction l as [|b l IH]; simpl; [reflexivity | now rewrite IH]. Qed.

Lemma label_str_app (l1 l2 : list Z) :
  label_str (l1 ++ l2) = (label_str l1 ++ label_str l2)%string.
Proof.
  induction l1 as [|b l1 IH]; simpl; [reflexivity|].
  now rewrite str_app_cons, IH.
Qed.

(** ** The decoder on well-formed labels *)

Section Decoder.

Import Handler.

(** Inside a label that the remaining bytes do not complete: every byte is
    added to [domain_string] and counted. *)
Lemma decode_label_partial (l rest : list Z) :
  forall (dom : list string) (s : string) (cc qlen exp : Z),
    Forall (fun b => 1 <= b < 256) l ->
    cc + Z.of_nat (length l) < exp ->
    decode_loop (l ++ rest) (mkDecoder dom s cc qlen 1 exp) =
    decode_loop rest
      (mkDecoder dom (s ++ label_str l) (cc + Z.of_nat (length l))
         (qlen + Z.of_nat (length l)) 1 exp).
Proof.
  induction l as [|b l IH]; intros dom s cc qlen exp Hl Hlt.
  - simpl. rewrite !Z.add_0_r. now rewrite str_app_nil_r.
  - apply Forall_cons in Hl as [Hb Hl]. simpl length in *.
    cbn [app decode_loop]. change (1 =? 1) with true. cbn iota.
    destruct (Z.eqb_spec b 0) as [?|_]; [lia|]. cbn [negb].
    destruct (Z.eqb_spec (cc + 1) exp) as [?|_]; [lia|].
    rewrite IH by (auto; lia).
    f_equal. f_equal; [|lia|lia].
    rewrite str_app_assoc. reflexivity.
Qed.

(** A label whose last byte brings [char_count] to [expected_length]: the
    label is appended to [domain] and the decoder is back between labels. *)
Lemma decode_label_complete (l rest : list Z) :
  forall (dom : list string) (s : string) (cc qlen exp : Z),
    l <> [] ->
    Forall (fun b => 1 <= b < 256) l ->
    cc + Z.of_nat (length l) = exp ->
    decode_loop (l ++ rest) (mkDecoder dom s cc qlen 1 exp) =
    decode_loop rest
      (mkDecoder (dom ++ [(s ++ label_str l)%string]) "" 0
         (qlen + Z.of_nat (length l)) 0 exp).
Proof.
  induction l as [|b l IH]; intros dom s cc qlen exp Hne Hl Hlen;
    [congruence|].
  apply Forall_cons in Hl as [Hb Hl]. simpl length in *.
  cbn [app decode_loop]. change (1 =? 1) with true. cbn iota.
  destruct (Z.eqb_spec b 0) as [?|_]; [lia|]. cbn [negb].
  destruct l as [|b' l].
  - destruct (Z.eqb_spec (cc + 1) exp) as [_|?]; [|simpl in *; lia].
    simpl. reflexivity.
  - destruct (Z.eqb_spec (cc + 1) exp) as [?|_]; [simpl length in *; lia|].
    rewrite IH by (auto; simpl length in *; lia).
    f_equal. f_equal; [|simpl length; lia].
    rewrite str_app_assoc. reflexivity.
Qed.

(** A whole sequence of labels, read from between two labels. *)
Lemma decode_labels (labels : list (list Z)) (rest : list Z) :
  forall (dom : list string) (qlen exp : Z),
    Forall plain_label labels ->
    exists exp' : Z,
      decode_loop (wire_labels labels ++ rest) (mkDecoder dom "" 0 qlen 0 exp) =
      decode_loop rest
        (mkDecoder (dom ++ map label_str labels) "" 0
           (qlen + Z.of_nat (length (wire_labels labels))) 0 exp').
Proof.
  induction labels as [|l labels IH]; intros dom qlen exp Hl.
  - exists exp. simpl. now rewrite app_nil_r, Z.add_0_r.
  - apply Forall_cons in Hl as [[Hlen Hb] Hl].
    destruct (IH (dom ++ [label_str l])
                (qlen + 1 + Z.of_nat (length l)) (Z.of_nat (length l)) Hl)
      as [exp' IH'].
    exists exp'. unfold wire_labels in *. cbn [map concat].
    unfold wire_label at 1. rewrite <- !app_assoc. cbn [app decode_loop].
    change (0 =? 1) with false. cbn iota.
    rewrite decode_label_complete; [| destruct l; simpl in *; [lia|congruence] | auto | lia].
    rewrite str_app_nil_l, IH'.
    f_equal. f_equal.
    + now rewrite <- app_assoc.
    + rewrite length_app. simpl length. lia.
Qed.

(** A name followed by a zero byte: the terminator opens a label of expected
    length 0, and the zero byte after it ends the loop with the empty label. *)
Lemma decode_question (labels : list (list Z)) (rest : list Z) :
  Forall plain_label labels ->
  decode_loop (qname_wire labels ++ 0 :: rest) decoder_init =
  mkDecoder (map label_str labels ++ [""]) "" 1
    (Z.of_nat (length (qname_wire labels))) 1 0.
Proof.
  intros Hl. unfold qname_wire, decoder_init. rewrite <- app_assoc.
  destruct (decode_labels labels ([0] ++ 0 :: rest) [] 0 0 Hl) as [exp' ->].
  cbn [app decode_loop]. change (0 =? 1) with false. cbn iota.
  change (1 =? 1) with true. cbn iota.
  change (0 =? 0) with true. cbn [negb]. cbn iota.
  change (0 + 1 =? 0) with false. cbn iota.
  f_equal. rewrite length_app. simpl length. lia.
Qed.

Lemma get_domain_and_QTYPE_question (labels : list (list Z)) (rest : list Z) :
  Forall plain_label labels ->
  get_domain_and_QTYPE (qname_wire labels ++ 0 :: rest) =
  (map label_str labels ++ [""], firstn 2 (0 :: rest)).
Proof.
  intros Hl. unfold get_domain_and_QTYPE.
  rewrite decode_question by assumption. cbn [domain QNAME_length].
  rewrite Nat2Z.id. unfold Py.slice.
  replace (length (qname_wire labels) + 2 - length (qname_wire labels))%nat
    with 2%nat by lia.
  now rewrite drop_app_length.
Qed.

(** A buffer that ends inside a label: the loop runs out of bytes with the
    label still open. *)
Lemma decode_truncated (labels : list (list Z)) (L : Z) (partial : list Z) :
  Forall plain_label labels ->
  Forall (fun b => 1 <= b < 256) partial ->
  Z.of_nat (length partial) < L ->
  decode_loop (wire_labels labels ++ L :: partial) decoder_init =
  mkDecoder (map label_str labels) (label_str partial)
    (Z.of_nat (length partial))
    (Z.of_nat (length (wire_labels labels ++ L :: partial))) 1 L.
Proof.
  intros Hl Hp Hlt. unfold decoder_init.
  destruct (decode_labels labels (L :: partial) [] 0 0 Hl) as [exp' ->].
  cbn [app decode_loop]. change (0 =? 1) with false. cbn iota.
  rewrite <- (app_nil_r partial) at 1.
  rewrite decode_label_partial by (auto; lia).
  cbn [decode_loop]. rewrite str_app_nil_l.
  f_equal. rewrite length_app. simpl length. lia.
Qed.

End Decoder.

(** ** The question encoder on decoded labels *)

Section Encoder.

Import Handler.

Lemma chars_bytes_label (l : list Z) :
  Forall (fun b => 1 <= b < 256) l -> chars_bytes (label_str l) = OK l.
Proof.
  induction l as [|b l IH]; intros Hl; [reflexivity|].
  apply Forall_cons in Hl as [Hb Hl]. cbn [label_str chars_bytes].
  rewrite ord_chr by lia. rewrite to_bytes_byte by lia.
  cbn [bind]. rewrite IH by assumption. reflexivity.
Qed.

Lemma name_loop_labels (labels : list (list Z)) (tl : list string) :
  forall Queries : list Z,
    Forall plain_label labels ->
    name_loop (map label_str labels ++ tl) Queries =
    name_loop tl (Queries ++ wire_labels labels).
Proof.
  induction labels as [|l labels IH]; intros Queries Hl.
  - unfold wire_labels. simpl. now rewrite app_nil_r.
  - apply Forall_cons in Hl as [[Hlen Hb] Hl].
    cbn [map app name_loop]. unfold Py.len.
    rewrite label_str_length, to_bytes_byte by lia. cbn [bind].
    rewrite chars_bytes_label by assumption. cbn [bind].
    rewrite IH by assumption. unfold wire_labels. cbn [map concat].
    unfold wire_label at 2. now rewrite <- !app_assoc.
Qed.

Lemma name_loop_question (labels : list (list Z)) :
  Forall plain_label labels ->
  name_loop (map label_str labels ++ [""]) [] = OK (qname_wire labels).
Proof.
  intros Hl. rewrite name_loop_labels by assumption. reflexivity.
Qed.

End Encoder.

(** ** Zone lookup *)

(** C1, as the code has it: when the dot-joined question name is not an
    origin key of the zone table, [get_zone_by_domain] returns the empty
    zone, which is also what it returns for an empty zone stored under that
    name; there is no separate outcome for a missing zone. *)
Theorem get_zone_by_domain_miss
    (zones : gmap string (gmap string (list Record_))) (domain : list string) :
  zones !! Py.join "." domain = None ->
  Zone.get_zone_by_domain zones domain = ∅ /\
  Zone.get_zone_by_domain (<[Py.join "." domain := ∅]> zones) domain = ∅.
Proof.
  intros Hmiss. unfold Zone.get_zone_by_domain, getitem.
  rewrite Hmiss, lookup_insert_eq. split; reflexivity.
Qed.

Lemma get_zone_by_domain_miss_witness :
  Zone.get_zone_by_domain example_zones ["nosuch"; "com"; ""] = ∅ /\
  Zone.get_zone_by_domain
    (<[Py.join "." ["nosuch"; "com"; ""] := ∅]> example_zones)
    ["nosuch"; "com"; ""] = ∅.
Proof.
  apply (get_zone_by_domain_miss example_zones ["nosuch"; "com"; ""]).
  vm_compute. reflexivity.
Defined.

(** C1 as stated fails: an address query for [nosuch.com], a name that is
    not an origin of the zone table, gets the empty zone from the lookup,
    and [zone[qtype]] on it raises [KeyError]; no response with ANCOUNT 0
    is built. *)
Lemma zone_miss_not_answered :
  let data := query_header ++ nosuch_com ++ [0; 1; 0; 1] in
  let domain := fst (Handler.get_domain_and_QTYPE (skipn 12 data)) in
  example_zones !! Py.join "." domain = None /\
  Zone.get_zone_by_domain example_zones domain = ∅ /\
  Handler.build_response data example_zones = Raise KeyError /\
  ~ (exists response : list Z,
       Handler.build_response data example_zones = OK response /\
       ANCOUNT_of response = 0).
Proof.
  cbv zeta.
  assert (Hraise : Handler.build_response
            (query_header ++ nosuch_com ++ [0; 1; 0; 1]) example_zones =
          Raise KeyError) by (vm_compute; reflexivity).
  split; [vm_compute; reflexivity|]. split; [vm_compute; reflexivity|].
  split; [exact Hraise|].
  intros (response & Hresp & _). rewrite Hraise in Hresp. discriminate.
Qed.

(** ** Response flags *)

Lemma build_flags_head (b : Z) (rest : list Z) :
  Handler.build_flags (b :: rest) = Handler.build_flags [b].
Proof. reflexivity. Qed.

(** What [build_flags] computes on a byte: the loop tests the bits 1 to 4
    and appends each masked value in decimal, so a set bit puts a digit
    other than 0 and 1 in the string handed to [int(_, 2)]. *)
Lemma build_flags_byte (b : Z) (rest : list Z) :
  is_byte b ->
  Handler.build_flags (b :: rest) =
  if Z.land b 30 =? 0 then OK [132; 0] else Raise ValueError.
Proof.
  intros Hb. rewrite build_flags_head.
  assert (Hall : forallb
            (fun b => bool_decide
               (Handler.build_flags [b] =
                if Z.land b 30 =? 0 then OK [132; 0] else Raise ValueError))
            (seqZ 0 256) = true) by (vm_compute; reflexivity).
  rewrite forallb_forall in Hall.
  specialize (Hall b). rewrite bool_decide_eq_true in Hall. apply Hall.
  apply list_elem_of_In, elem_of_seqZ. unfold is_byte in Hb. lia.
Qed.

(** C2 fails on the code at opcode 1 and at opcode 4: the flags [08 00]
    (opcode 1) make [build_flags] raise [ValueError], and the flags [20 00]
    (opcode 4) give [84 00], where the opcode bits of the query are not
    copied ([0x80 | (4 << 3) | 0x04] is [A4]). *)
Theorem build_flags_opcode_lost :
  opcode_of 8 = 1 /\
  Handler.build_flags [8; 0] = Raise ValueError /\
  opcode_of 32 = 4 /\
  Handler.build_flags [32; 0] = OK [132; 0] /\
  Z.lor (Z.lor 128 (Z.shiftl (opcode_of 32) 3)) 4 = 164.
Proof. repeat split; vm_compute; reflexivity. Qed.

(** ** Record types other than the address type *)

(** C5 fails on the code: an AAAA question (QTYPE 28) for [example.com], an
    origin of the zone table, makes [get_records] look up the tag [''] in the
    zone and raise [KeyError], and so does [build_response]. *)
Theorem unsupported_qtype_raises :
  Handler.get_domain_and_QTYPE (example_com ++ [0; 28; 0; 1]) =
    (["example"; "com"; ""], [0; 28]) /\
  Handler.get_records (example_com ++ [0; 28; 0; 1]) example_zones =
    Raise KeyError /\
  Handler.build_response
    (query_header ++ example_com ++ [0; 28; 0; 1]) example_zones =
    Raise KeyError.
Proof. repeat split; vm_compute; reflexivity. Qed.

(** The same question with QTYPE 1 is answered. *)
Example address_query_answered :
  Handler.build_response
    (query_header ++ example_com ++ [0; 1; 0; 1]) example_zones =
  OK ([171; 205; 132; 0; 0; 1; 0; 1; 0; 0; 0; 0] ++
      example_com ++ [0; 1; 0; 1] ++
      [192; 12; 0; 1; 0; 1; 0; 0; 0; 60; 0; 4; 10; 0; 0; 1]).
Proof. vm_compute. reflexivity. Qed.

(** ** Answer blocks *)

(** C9: the address record [{ttl: 300, value: "93.184.216.34"}] is encoded
    as one answer block whose TTL field is [00 00 01 2C], whose RDLENGTH
    field is [00 04] and whose RDATA field is [5D B8 D8 22]. *)
Theorem answer_block_example :
  exists block : list Z,
    Handler.build_answers [mkRecord 300 "93.184.216.34"] "a" "IN" = OK block /\
    Handler.answer_block (mkRecord 300 "93.184.216.34") "a" "IN" = OK block /\
    length block = 16%nat /\
    Py.slice block 6 10 = [0x00; 0x00; 0x01; 0x2C] /\
    Py.slice block 10 12 = [0x00; 0x04] /\
    Py.slice block 12 16 = [0x5D; 0xB8; 0xD8; 0x22].
Proof.
  exists [192; 12; 0; 1; 0; 1; 0; 0; 1; 44; 0; 4; 93; 184; 216; 34].
  repeat split; vm_compute; reflexivity.
Qed.

(** ** Round trip of the question name *)

(** C3, as the code has it: for a name whose labels have 1 to 255 bytes,
    none of them zero, followed in the buffer by a zero byte (the high byte
    of a QTYPE below 256), decoding and re-encoding gives back the bytes of
    the name, and [build_queries] starts with them. *)
Theorem name_roundtrip_plain
    (labels : list (list Z)) (rest : list Z) (qtype : string) :
  Forall plain_label labels ->
  name_roundtrip labels (0 :: rest) /\
  exists tail : list Z,
    Handler.build_queries
      (fst (Handler.get_domain_and_QTYPE (qname_wire labels ++ 0 :: rest)))
      qtype = OK (qname_wire labels ++ tail).
Proof.
  intros Hl. unfold name_roundtrip, Handler.build_queries.
  rewrite get_domain_and_QTYPE_question by assumption. cbn [fst].
  rewrite name_loop_question by assumption. split; [reflexivity|].
  cbn [bind]. destruct (String.eqb qtype "a"); eexists; reflexivity.
Qed.

Lemma name_roundtrip_plain_witness :
  name_roundtrip [[119; 119; 119]; [97]] (0 :: [1; 0; 1]) /\
  exists tail : list Z,
    Handler.build_queries
      (fst (Handler.get_domain_and_QTYPE
              (qname_wire [[119; 119; 119]; [97]] ++ 0 :: [1; 0; 1])))
      "a" = OK (qname_wire [[119; 119; 119]; [97]] ++ tail).
Proof.
  apply (name_roundtrip_plain [[119; 119; 119]; [97]] [1; 0; 1] "a").
  repeat constructor; simpl; lia.
Defined.

(** C3 as stated fails.  The name [01 61 00] in a question of type 257
    decodes to the labels ["a"; "\001\001"], which encode to
    [01 61 02 01 01]; the name [01 00 00], whose label is a zero byte, in an
    address question decodes to two empty labels, which encode to [00 00]. *)
Lemma name_roundtrip_fails :
  Forall wire_ok_label [[97]] /\
  Handler.get_domain_and_QTYPE (qname_wire [[97]] ++ [1; 1; 0; 1]) =
    (["a"; label_str [1; 1]], [0; 1]) /\
  ~ name_roundtrip [[97]] [1; 1; 0; 1] /\
  Forall wire_ok_label [[0]] /\
  Handler.get_domain_and_QTYPE (qname_wire [[0]] ++ [0; 1; 0; 1]) =
    ([""; ""], [0; 0]) /\
  ~ name_roundtrip [[0]] [0; 1; 0; 1].
Proof.
  unfold name_roundtrip, wire_ok_label, is_byte.
  repeat split; try (vm_compute; congruence);
    repeat constructor; simpl; lia.
Qed.

(** ** Truncated buffers *)

(** C4, as the code has it: on a buffer that ends inside a label (labels
    free of zero bytes) the decoder signals nothing; it returns the labels
    completed before the truncated one and, having consumed the whole
    buffer, an empty QTYPE. *)
Theorem truncated_label_decoded
    (labels : list (list Z)) (L : Z) (partial : list Z) :
  Forall plain_label labels ->
  Forall (fun b => 1 <= b < 256) partial ->
  Z.of_nat (length partial) < L ->
  Handler.get_domain_and_QTYPE (wire_labels labels ++ L :: partial) =
  (map label_str labels, []).
Proof.
  intros Hl Hp Hlt. unfold Handler.get_domain_and_QTYPE.
  rewrite decode_truncated by assumption.
  cbn [Handler.domain Handler.QNAME_length].
  rewrite Nat2Z.id. unfold Py.slice. now rewrite drop_all, take_nil.
Qed.

Lemma truncated_label_decoded_witness :
  Handler.get_domain_and_QTYPE (wire_labels [[119; 119; 119]] ++ 7 :: [101; 120]) =
  (map label_str [[119; 119; 119]], []).
Proof.
  apply (truncated_label_decoded [[119; 119; 119]] 7 [101; 120]);
    [repeat constructor; simpl; lia | repeat constructor; lia | simpl; lia].
Defined.

(** C4 as stated fails: the buffer [07 65 78], cut after two of the seven
    bytes its length byte announces, is decoded into the empty label list
    and an empty QTYPE, and with a zone table that has an entry for that
    query the request is answered. *)
Lemma truncated_buffer_decoded :
  truncated_mid_label [7; 101; 120] /\
  Handler.get_domain_and_QTYPE [7; 101; 120] = ([], []) /\
  Handler.get_records [7; 101; 120] {[ "" := {[ "" := [] ]} ]} =
    OK ([], "", [], "IN") /\
  Handler.build_response (query_header ++ [7; 101; 120])
    {[ "" := {[ "" := [] ]} ]} =
    OK [171; 205; 132; 0; 0; 1; 0; 0; 0; 0; 0; 0; 0; 1].
Proof.
  split.
  - exists [], 7, [101; 120]. unfold is_byte.
    repeat split; try lia; repeat constructor; lia.
  - repeat split; vm_compute; reflexivity.
Qed.

(** ** The lookup key of a decoded question *)

Lemma join_snoc_empty (l : list string) :
  l <> [] -> Py.join "." (l ++ [""]) = (Py.join "." l ++ ".")%string.
Proof.
  induction l as [|s l IH]; intros Hne; [congruence|].
  destruct l as [|s' l].
  - cbn [app Py.join]. now rewrite str_app_nil_r.
  - specialize (IH ltac:(discriminate)).
    change (Py.join "." ((s :: s' :: l) ++ [""]))
      with (s ++ "." ++ Py.join "." ((s' :: l) ++ [""]))%string.
    rewrite IH.
    change (Py.join "." (s :: s' :: l))
      with (s ++ "." ++ Py.join "." (s' :: l))%string.
    now rewrite !str_app_assoc.
Qed.

(** C7, as the code has it: for an address question whose name has at least
    one label, the labels free of zero bytes, the decoded label list ends
    with the empty string, the lookup key is the dot-joined labels followed
    by a dot, and a zone is found only under an origin that ends in a dot. *)
Theorem question_key_trailing_dot
    (labels : list (list Z)) (rest : list Z) :
  labels <> [] ->
  Forall plain_label labels ->
  let domain :=
    fst (Handler.get_domain_and_QTYPE (qname_wire labels ++ [0; 1] ++ rest)) in
  snd (Handler.get_domain_and_QTYPE (qname_wire labels ++ [0; 1] ++ rest)) =
    [0; 1] /\
  last domain = Some "" /\
  Py.join "." domain =
    (Py.join "." (map label_str labels) ++ ".")%string /\
  ends_with_dot (Py.join "." domain) /\
  forall zones : gmap string (gmap string (list Record_)),
    Zone.get_zone_by_domain zones domain <> ∅ ->
    exists origin : string,
      ends_with_dot origin /\
      zones !! origin = Some (Zone.get_zone_by_domain zones domain).
Proof.
  intros Hne Hl. cbv zeta. cbn [app].
  rewrite get_domain_and_QTYPE_question by assumption. cbn [fst snd firstn].
  assert (Hkey : Py.join "." (map label_str labels ++ [""]) =
                 (Py.join "." (map label_str labels) ++ ".")%string).
  { apply join_snoc_empty. destruct labels; [congruence | discriminate]. }
  split; [reflexivity|]. split; [apply last_snoc|].
  split; [exact Hkey|]. split; [rewrite Hkey; eexists; reflexivity|].
  intros zones Hhit. exists (Py.join "." (map label_str labels ++ [""])).
  split; [rewrite Hkey; eexists; reflexivity|].
  unfold Zone.get_zone_by_domain, getitem in *.
  destruct (zones !! Py.join "." (map label_str labels ++ [""]));
    [reflexivity | congruence].
Qed.

Lemma question_key_trailing_dot_witness :
  Py.join "."
    (fst (Handler.get_domain_and_QTYPE
            (qname_wire [[119; 119; 119]; [97]] ++ [0; 1] ++ [0; 1]))) =
  (Py.join "." (map label_str [[119; 119; 119]; [97]]) ++ ".")%string.
Proof.
  apply (question_key_trailing_dot [[119; 119; 119]; [97]] [0; 1]);
    [discriminate | repeat constructor; simpl; lia].
Defined.

(** C7 as stated fails on the question for the root name: the name [00]
    decodes to the label list [[""]], whose lookup key is the empty string,
    and a zone stored under the origin [""] (no trailing dot) is found.  It
    also fails on a label with a zero byte: [02 00 61 00] decodes to [[""]]
    as well. *)
Lemma root_question_key :
  Handler.get_domain_and_QTYPE (qname_wire [] ++ [0; 1; 0; 1]) =
    ([""], [0; 1]) /\
  ~ ends_with_dot (Py.join "." [""]) /\
  Zone.get_zone_by_domain
    {[ "" := {[ "a" := [mkRecord 60 "10.0.0.1"] ]} ]} [""] =
    {[ "a" := [mkRecord 60 "10.0.0.1"] ]} /\
  Forall wire_ok_label [[0; 97]] /\
  fst (Handler.get_domain_and_QTYPE (qname_wire [[0; 97]] ++ [0; 1; 0; 1])) =
    [""].
Proof.
  split; [vm_compute; reflexivity|]. split.
  - intros [p Hp]. destruct p; discriminate.
  - split; [vm_compute; reflexivity|].
    split; [|vm_compute; reflexivity].
    unfold wire_ok_label, is_byte. repeat constructor; simpl; lia.
Qed.

(** ** The answer section and the header counts *)

Lemma bind_ok {A B : Type} (r : result A) (k : A -> result B) (b : B) :
  bind r k = OK b -> exists a : A, r = OK a /\ k a = OK b.
Proof. destruct r as [a|e]; simpl; [eauto | discriminate]. Qed.

Ltac bind_inv H :=
  let a := fresh "a" in
  let Ha := fresh "Ha" in
  apply bind_ok in H as (a & Ha & H).

Section Answers.

Import Handler.

Variables qtype qclass : string.

(** A successful run of the loop appended one block per record, in order. *)
Lemma answers_loop_blocks (records : list Record_) :
  forall Answers out : list Z,
    answers_loop records qtype qclass Answers = OK out ->
    exists blocks : list (list Z),
      Forall2 (fun r b => answer_block r qtype qclass = OK b) records blocks /\
      out = Answers ++ concat blocks.
Proof.
  induction records as [|r records IH]; intros Answers out H.
  - injection H as <-. exists []. split; [constructor|].
    simpl. now rewrite app_nil_r.
  - cbn [answers_loop] in H. bind_inv H.
    destruct (IH _ _ H) as (blocks & Hblocks & ->).
    exists (a :: blocks). split; [constructor; assumption|].
    simpl. now rewrite app_assoc.
Qed.

Lemma build_answers_blocks (records : list Record_) (answers : list Z) :
  build_answers records qtype qclass = OK answers ->
  exists blocks : list (list Z),
    Forall2 (fun r b => answer_block r qtype qclass = OK b) records blocks /\
    answers = concat blocks.
Proof.
  intros H. destruct (answers_loop_blocks _ _ _ H) as (blocks & Hb & ->).
  exists blocks. auto.
Qed.

(** An error in a block is the result of the loop. *)
Lemma answers_loop_raise (records : list Record_) (r : Record_) :
  forall Answers : list Z,
    In r records ->
    (exists e, answer_block r qtype qclass = Raise e) ->
    exists e, answers_loop records qtype qclass Answers = Raise e.
Proof.
  induction records as [|r' records IH]; intros Answers Hin Hr; [destruct Hin|].
  cbn [answers_loop].
  destruct (answer_block r' qtype qclass) as [block|e] eqn:Hblock.
  - cbn [bind]. destruct Hin as [->|Hin].
    + destruct Hr as [e He]. congruence.
    + now apply IH.
  - exists e. reflexivity.
Qed.

Lemma answer_block_pointer (r : Record_) (block : list Z) :
  answer_block r qtype qclass = OK block -> firstn 2 block = [192; 12].
Proof.
  unfold answer_block. intros H. do 4 bind_inv H.
  injection H as <-. reflexivity.
Qed.

End Answers.

Lemma build_flags_ok (flags out : list Z) :
  Handler.build_flags flags = OK out -> flags <> [] /\ length out = 2%nat.
Proof.
  intros H. split; [intros ->; vm_compute in H; discriminate|].
  unfold Handler.build_flags in H. cbv zeta in H.
  do 5 bind_inv H. injection H as <-.
  match goal with
  | H1 : Py.to_bytes _ 1 = OK ?x, H2 : Py.to_bytes _ 1 = OK ?y |- _ =>
      apply to_bytes_length in H1, H2
  end.
  rewrite length_app. lia.
Qed.

(** The layout of a header that was built: two id bytes, two flag bytes, the
    question count 1 and the record count. *)
Lemma build_header_layout (data : list Z) (records : list Record_)
    (header : list Z) :
  Handler.build_header data records = OK header ->
  Z.of_nat (length records) < 65536 /\
  exists t1 t2 f1 f2 : Z,
    header =
    [t1; t2; f1; f2; 0; 1] ++
    Py.be_bytes 2 (Z.of_nat (length records)) ++ [0; 0; 0; 0].
Proof.
  unfold Handler.build_header. cbv zeta. intros H. do 5 bind_inv H.
  injection H as <-.
  match goal with
  | Hf : Handler.build_flags _ = OK ?f |- _ =>
      apply build_flags_ok in Hf as [Hne Hlen]
  end.
  repeat match goal with
  | Hb : Py.to_bytes _ _ = OK _ |- _ =>
      apply to_bytes_inv in Hb as [? ->]
  end.
  assert (Hpow : 256 ^ Z.of_nat 2 = 65536) by reflexivity.
  split; [lia|].
  destruct data as [|t1 [|t2 [|f1 data]]];
    try (exfalso; apply Hne; reflexivity).
  destruct a as [|f1' [|f2' [|? ?]]]; try discriminate.
  exists t1, t2, f1', f2'. reflexivity.
Qed.

(** C6: when the header and the answer section are built for the same
    record list, the header's QDCOUNT field is 1 and its ANCOUNT field,
    read as a big-endian integer, is the number of answer blocks that
    [build_answers] appended, one per record. *)
Theorem header_counts_answers
    (data : list Z) (records : list Record_) (qtype qclass : string)
    (header answers : list Z) :
  Handler.build_header data records = OK header ->
  Handler.build_answers records qtype qclass = OK answers ->
  QDCOUNT_of header = 1 /\
  exists blocks : list (list Z),
    Forall2 (fun r b => Handler.answer_block r qtype qclass = OK b)
      records blocks /\
    answers = concat blocks /\
    ANCOUNT_of header = Z.of_nat (length blocks).
Proof.
  intros Hh Ha.
  apply build_header_layout in Hh as (Hlen & t1 & t2 & f1 & f2 & ->).
  split; [reflexivity|].
  destruct (build_answers_blocks _ _ _ _ Ha) as (blocks & Hblocks & ->).
  exists blocks. split; [assumption|]. split; [reflexivity|].
  rewrite <- (Forall2_length _ _ _ Hblocks).
  unfold ANCOUNT_of, Py.slice. cbn [app skipn Nat.sub].
  change (firstn 2 (Py.be_bytes 2 (Z.of_nat (length records)) ++ [0; 0; 0; 0]))
    with (Py.be_bytes 2 (Z.of_nat (length records))).
  apply from_bytes_be2. lia.
Qed.

Lemma header_counts_answers_witness :
  QDCOUNT_of [171; 205; 132; 0; 0; 1; 0; 1; 0; 0; 0; 0] = 1 /\
  exists blocks : list (list Z),
    Forall2 (fun r b => Handler.answer_block r "a" "IN" = OK b)
      [mkRecord 60 "10.0.0.1"] blocks /\
    [192; 12; 0; 1; 0; 1; 0; 0; 0; 60; 0; 4; 10; 0; 0; 1] = concat blocks /\
    ANCOUNT_of [171; 205; 132; 0; 0; 1; 0; 1; 0; 0; 0; 0] =
      Z.of_nat (length blocks).
Proof.
  apply (header_counts_answers query_header [mkRecord 60 "10.0.0.1"] "a" "IN");
    vm_compute; reflexivity.
Defined.

(** C8: every answer block that [build_answers] appends, one per record of
    the list, begins with the two bytes [C0 0C]. *)
Theorem answer_owner_pointer
    (records : list Record_) (qtype qclass : string) (answers : list Z) :
  Handler.build_answers records qtype qclass = OK answers ->
  exists blocks : list (list Z),
    Forall2
      (fun r b => Handler.answer_block r qtype qclass = OK b /\
                  firstn 2 b = [0xC0; 0x0C])
      records blocks /\
    answers = concat blocks.
Proof.
  intros Ha.
  destruct (build_answers_blocks _ _ _ _ Ha) as (blocks & Hblocks & ->).
  exists blocks. split; [|reflexivity].
  eapply Forall2_impl; [exact Hblocks|].
  intros r b Hb. split; [exact Hb|]. eapply answer_block_pointer, Hb.
Qed.

Lemma answer_owner_pointer_witness :
  exists blocks : list (list Z),
    Forall2
      (fun r b => Handler.answer_block r "a" "IN" = OK b /\
                  firstn 2 b = [0xC0; 0x0C])
      [mkRecord 60 "10.0.0.1"; mkRecord 300 "93.184.216.34"] blocks /\
    [192; 12; 0; 1; 0; 1; 0; 0; 0; 60; 0; 4; 10; 0; 0; 1;
     192; 12; 0; 1; 0; 1; 0; 0; 1; 44; 0; 4; 93; 184; 216; 34] =
    concat blocks.
Proof.
  apply (answer_owner_pointer
           [mkRecord 60 "10.0.0.1"; mkRecord 300 "93.184.216.34"] "a" "IN").
  vm_compute. reflexivity.
Defined.

(** ** Octets of an address *)

Lemma address_bytes_raise (parts : list string) (part : string) (n : Z) :
  In part parts ->
  Py.int_of_str part 10 = OK n ->
  n < 0 \/ 255 < n ->
  exists e, Handler.address_bytes parts = Raise e.
Proof.
  induction parts as [|p parts IH]; intros Hin Hn Hrange; [destruct Hin|].
  cbn [Handler.address_bytes].
  destruct (Py.int_of_str p 10) as [m|e] eqn:Hp; [|eexists; reflexivity].
  cbn [bind].
  destruct (Py.to_bytes m 1) as [b|e] eqn:Hm; [|eexists; reflexivity].
  cbn [bind]. apply to_bytes_inv in Hm as [Hm _].
  change (256 ^ Z.of_nat 1) with 256 in Hm.
  destruct Hin as [->|Hin]; [rewrite Hn in Hp; injection Hp as ->; lia|].
  destruct (IH Hin Hn Hrange) as [e ->]. eexists. reflexivity.
Qed.

Lemma answer_block_address_raise (r : Record_) (qclass : string) :
  (exists e, Handler.address_bytes (Py.split "." (value r)) = Raise e) ->
  exists e, Handler.answer_block r "a" qclass = Raise e.
Proof.
  intros [e He]. unfold Handler.answer_block. cbv zeta.
  change (String.eqb "a" "a") with true. cbn iota.
  rewrite He.
  destruct (String.eqb qclass "IN");
    destruct (Py.to_bytes (ttl r) 4); eexists; reflexivity.
Qed.

(** C10: when a record of the list has, in its dotted value, a part that
    reads as an integer below 0 or above 255, encoding the answers of an
    address query raises an error; no byte is produced for that part. *)
Theorem octet_out_of_range_raises
    (records : list Record_) (record : Record_) (qclass part : string)
    (n : Z) :
  In record records ->
  In part (Py.split "." (value record)) ->
  Py.int_of_str part 10 = OK n ->
  n < 0 \/ 255 < n ->
  exists e, Handler.build_answers records "a" qclass = Raise e.
Proof.
  intros Hrec Hpart Hn Hrange. unfold Handler.build_answers.
  eapply answers_loop_raise; [exact Hrec|].
  apply answer_block_address_raise.
  eapply address_bytes_raise; eassumption.
Qed.

Lemma octet_out_of_range_raises_witness :
  exists e,
    Handler.build_answers
      [mkRecord 60 "10.0.0.1"; mkRecord 60 "10.0.0.256"] "a" "IN" = Raise e.
Proof.
  apply (octet_out_of_range_raises
           [mkRecord 60 "10.0.0.1"; mkRecord 60 "10.0.0.256"]
           (mkRecord 60 "10.0.0.256") "IN" "256" 256);
    [simpl; auto | vm_compute; auto | reflexivity | lia].
Defined.

Example octet_256_overflow :
  Handler.build_answers [mkRecord 60 "10.0.0.256"] "a" "IN" =
  Raise OverflowError.
Proof. reflexivity. Qed.

Example octet_negative_overflow :
  Handler.build_answers [mkRecord 60 "10.0.0.-1"] "a" "IN" =
  Raise OverflowError.
Proof. reflexivity. Qed.

(** ** Whole responses *)

(** A response that was built starts with the 12 header bytes, so its count
    fields are those of the header: one question, and as many answers as
    the resolver returned records. *)
Lemma build_response_counts (data : list Z)
    (zones : gmap string (gmap string (list Record_))) (response : list Z) :
  Handler.build_response data zones = OK response ->
  exists (records : list Record_) (qtype qclass : string)
         (domain : list string) (blocks : list (list Z)),
    Handler.get_records (skipn 12 data) zones =
      OK (records, qtype, domain, qclass) /\
    Forall2 (fun r b => Handler.answer_block r qtype qclass = OK b)
      records blocks /\
    QDCOUNT_of response = 1 /\
    ANCOUNT_of response = Z.of_nat (length blocks).
Proof.
  unfold Handler.build_response. intros H. bind_inv H.
  destruct a as [[[records qtype] domain] qclass].
  do 3 bind_inv H. injection H as <-.
  exists records, qtype, qclass, domain.
  match goal with
  | Hh : Handler.build_header _ _ = OK _,
    Ha : Handler.build_answers _ _ _ = OK _ |- _ =>
      apply build_header_layout in Hh as (Hlen & t1 & t2 & f1 & f2 & ->);
      destruct (build_answers_blocks _ _ _ _ Ha) as (blocks & Hblocks & _)
  end.
  exists blocks. split; [assumption|]. split; [assumption|].
  split; [reflexivity|].
  rewrite <- (Forall2_length _ _ _ Hblocks).
  unfold ANCOUNT_of, Py.slice. cbn [app skipn Nat.sub].
  change (firstn 2 (Py.be_bytes 2 (Z.of_nat (length records)) ++ ?[tl]))
    with (Py.be_bytes 2 (Z.of_nat (length records))).
  apply from_bytes_be2. lia.
Qed.

(** * Further properties of the handler *)

(** ** Flags and header, case by case *)

Lemma be_bytes_2 (n : Z) :
  0 <= n < 65536 -> Py.be_bytes 2 n = [n / 256; n mod 256].
Proof.
  intros Hn. cbn [Py.be_bytes]. change (8 * Z.of_nat 1) with 8.
  change (8 * Z.of_nat 0) with 0. rewrite Z.shiftr_0_r.
  change 255 with (Z.ones 8). rewrite !Z.land_ones by lia.
  rewrite Z.shiftr_div_pow2 by lia. change (2 ^ 8) with 256.
  rewrite (Z.mod_small (n / 256))
    by (split; [apply Z.div_pos; lia | apply Z.div_lt_upper_bound; lia]).
  reflexivity.
Qed.

(** X1: [build_flags] looks at the first byte of its argument only.  With
    no byte it raises [TypeError]; with a first byte whose bits 1 to 4 are
    clear it returns [84 00]; with any other first byte it raises
    [ValueError]. *)
Theorem build_flags_cases (flags : list Z) :
  Forall is_byte flags ->
  Handler.build_flags flags =
  match flags with
  | [] => Raise TypeError
  | byte1 :: _ =>
      if Z.land byte1 0x1E =? 0 then OK [0x84; 0x00] else Raise ValueError
  end.
Proof.
  intros Hb. destruct flags as [|b rest]; [reflexivity|].
  apply Forall_cons in Hb as [Hb _]. now apply build_flags_byte.
Qed.

Lemma build_flags_cases_witness :
  Handler.build_flags [1; 32] =
  if Z.land 1 0x1E =? 0 then OK [0x84; 0x00] else Raise ValueError.
Proof.
  apply (build_flags_cases [1; 32]).
  unfold is_byte. repeat constructor; lia.
Defined.

Lemma build_header_eval (t1 t2 f1 : Z) (rest : list Z)
    (records : list Record_) :
  is_byte f1 ->
  Handler.build_header (t1 :: t2 :: f1 :: rest) records =
  if Z.land f1 0x1E =? 0 then
    if Z.of_nat (length records) <? 65536 then
      OK [t1; t2; 0x84; 0x00; 0; 1;
          Z.of_nat (length records) / 256;
          Z.of_nat (length records) mod 256;
          0; 0; 0; 0]
    else Raise OverflowError
  else Raise ValueError.
Proof.
  intros Hf. unfold Handler.build_header. cbv zeta.
  change (Py.slice (t1 :: t2 :: f1 :: rest) 2 4) with (f1 :: firstn 1 rest).
  change (Py.slice (t1 :: t2 :: f1 :: rest) 0 2) with [t1; t2].
  rewrite build_flags_byte by assumption.
  destruct (Z.land f1 30 =? 0); [|reflexivity]. cbn [bind].
  change (Py.to_bytes 1 2) with (OK [0; 1]). cbn [bind].
  destruct (Z.ltb_spec (Z.of_nat (length records)) 65536) as [Hlt|Hge].
  - rewrite to_bytes_ok by (change (256 ^ Z.of_nat 2) with 65536; lia).
    cbn [bind]. change (Py.to_bytes 0 2) with (OK [0; 0]). cbn [bind].
    rewrite be_bytes_2 by lia. reflexivity.
  - unfold Py.to_bytes at 1.
    destruct (Z.ltb_spec (Z.of_nat (length records)) 0) as [?|_]; [lia|].
    destruct (Z.leb_spec (256 ^ Z.of_nat 2) (Z.of_nat (length records)))
      as [_|Hlt]; [reflexivity|].
    change (256 ^ Z.of_nat 2) with 65536 in Hlt. lia.
Qed.

(** X2: [build_header] on a datagram of bytes.  With fewer than three
    bytes it raises [TypeError]; with bit 1, 2, 3 or 4 of the third byte
    set it raises [ValueError]; with 65536 records or more it raises
    [OverflowError]; otherwise the header is the first two bytes of the
    datagram, [84 00], [00 01], the number of records on two bytes, and
    four zero bytes. *)
Theorem build_header_cases (data : list Z) (records : list Record_) :
  Forall is_byte data ->
  Handler.build_header data records =
  match data with
  | t1 :: t2 :: f1 :: _ =>
      if Z.land f1 0x1E =? 0 then
        if Z.of_nat (length records) <? 65536 then
          OK [t1; t2; 0x84; 0x00; 0; 1;
              Z.of_nat (length records) / 256;
              Z.of_nat (length records) mod 256;
              0; 0; 0; 0]
        else Raise OverflowError
      else Raise ValueError
  | _ => Raise TypeError
  end.
Proof.
  intros Hb. destruct data as [|t1 [|t2 [|f1 rest]]]; try reflexivity.
  apply build_header_eval.
  apply Forall_cons in Hb as [_ Hb]. apply Forall_cons in Hb as [_ Hb].
  now apply Forall_cons in Hb as [Hf _].
Qed.

Lemma build_header_cases_witness :
  Handler.build_header query_header [mkRecord 60 "10.0.0.1"] =
  OK [171; 205; 0x84; 0x00; 0; 1; 0; 1; 0; 0; 0; 0].
Proof.
  apply (build_header_cases query_header [mkRecord 60 "10.0.0.1"]).
  unfold is_byte, query_header. repeat constructor; lia.
Defined.

(** ** Responses *)

(** X3: every response that [build_response] builds from a datagram of
    bytes starts with the two id bytes of the datagram, the flags [84 00]
    and the question count [00 01], and its bytes 8 to 11 (the name-server
    and additional counts) are zero, whatever the resolver found. *)
Theorem response_header_fields (data : list Z)
    (zones : gmap string (gmap string (list Record_))) (response : list Z) :
  Forall is_byte data ->
  Handler.build_response data zones = OK response ->
  exists t1 t2 : Z,
    firstn 2 data = [t1; t2] /\
    firstn 6 response = [t1; t2; 0x84; 0x00; 0x00; 0x01] /\
    Py.slice response 8 12 = [0; 0; 0; 0].
Proof.
  intros Hb H. unfold Handler.build_response in H. bind_inv H.
  destruct a as [[[records qtype] dom] qclass]. do 3 bind_inv H.
  injection H as <-.
  match goal with
  | Hh : Handler.build_header _ _ = OK _ |- _ => rename Hh into Hhead
  end.
  destruct data as [|t1 [|t2 [|f1 rest]]]; try discriminate Hhead.
  apply Forall_cons in Hb as [_ Hb]. apply Forall_cons in Hb as [_ Hb].
  apply Forall_cons in Hb as [Hf _].
  rewrite build_header_eval in Hhead by assumption.
  destruct (Z.land f1 30 =? 0); [|discriminate].
  destruct (Z.of_nat (length records) <? 65536); [|discriminate].
  injection Hhead as <-. exists t1, t2. repeat split.
Qed.

Lemma response_header_fields_witness :
  exists t1 t2 : Z,
    firstn 2 (query_header ++ example_com ++ [0; 1; 0; 1]) = [t1; t2] /\
    firstn 6
      ([171; 205; 132; 0; 0; 1; 0; 1; 0; 0; 0; 0] ++
       example_com ++ [0; 1; 0; 1] ++
       [192; 12; 0; 1; 0; 1; 0; 0; 0; 60; 0; 4; 10; 0; 0; 1]) =
      [t1; t2; 0x84; 0x00; 0x00; 0x01] /\
    Py.slice
      ([171; 205; 132; 0; 0; 1; 0; 1; 0; 0; 0; 0] ++
       example_com ++ [0; 1; 0; 1] ++
       [192; 12; 0; 1; 0; 1; 0; 0; 0; 60; 0; 4; 10; 0; 0; 1]) 8 12 =
      [0; 0; 0; 0].
Proof.
  apply (response_header_fields
           (query_header ++ example_com ++ [0; 1; 0; 1]) example_zones).
  - unfold is_byte. vm_compute. repeat constructor; discriminate.
  - vm_compute. reflexivity.
Defined.

(** X4: a query for a name that is not an origin of the zone table is
    never answered: whatever its type, [get_records] raises [KeyError] on
    the empty zone that the lookup returns, and so does [build_response]. *)
Theorem zone_miss_raises (data : list Z)
    (zones : gmap string (gmap string (list Record_))) :
  zones !! Py.join "." (fst (Handler.get_domain_and_QTYPE (skipn 12 data))) =
    None ->
  Handler.get_records (skipn 12 data) zones = Raise KeyError /\
  Handler.build_response data zones = Raise KeyError.
Proof.
  intros Hmiss.
  assert (Hrec : Handler.get_records (skipn 12 data) zones = Raise KeyError).
  { unfold Handler.get_records.
    destruct (Handler.get_domain_and_QTYPE (skipn 12 data)) as [dom QTYPE].
    cbn [fst] in Hmiss. change (Py.to_bytes 1 2) with (OK [0; 1]).
    cbn [bind]. unfold Zone.get_zone_by_domain, getitem at 2.
    rewrite Hmiss. unfold getitem. now rewrite lookup_empty. }
  split; [exact Hrec|]. unfold Handler.build_response. now rewrite Hrec.
Qed.

Lemma zone_miss_raises_witness :
  Handler.get_records
    (skipn 12 (query_header ++ nosuch_com ++ [0; 28; 0; 1])) example_zones =
    Raise KeyError /\
  Handler.build_response
    (query_header ++ nosuch_com ++ [0; 28; 0; 1]) example_zones =
    Raise KeyError.
Proof.
  apply (zone_miss_raises
           (query_header ++ nosuch_com ++ [0; 28; 0; 1]) example_zones).
  vm_compute. reflexivity.
Defined.

(** X5: a query whose two QTYPE bytes are not [00 01] is never answered
    by a zone table whose zones have no record list under the empty tag:
    [get_records] looks the empty tag up and raises [KeyError], and so does
    [build_response]. *)
Theorem other_qtype_raises (data : list Z)
    (zones : gmap string (gmap string (list Record_))) :
  snd (Handler.get_domain_and_QTYPE (skipn 12 data)) <> [0; 1] ->
  (forall (name : string) (zone : gmap string (list Record_)),
      zones !! name = Some zone -> zone !! "" = None) ->
  Handler.get_records (skipn 12 data) zones = Raise KeyError /\
  Handler.build_response data zones = Raise KeyError.
Proof.
  intros Hq Hz.
  assert (Hrec : Handler.get_records (skipn 12 data) zones = Raise KeyError).
  { unfold Handler.get_records.
    destruct (Handler.get_domain_and_QTYPE (skipn 12 data)) as [dom QTYPE].
    cbn [snd] in Hq. change (Py.to_bytes 1 2) with (OK [0; 1]).
    cbn [bind]. destruct (decide (QTYPE = [0; 1])) as [?|_]; [contradiction|].
    unfold Zone.get_zone_by_domain, getitem at 2.
    destruct (zones !! Py.join "." dom) as [zone|] eqn:Hzone.
    - unfold getitem. now rewrite (Hz _ _ Hzone).
    - unfold getitem. now rewrite lookup_empty. }
  split; [exact Hrec|]. unfold Handler.build_response. now rewrite Hrec.
Qed.

Lemma other_qtype_raises_witness :
  Handler.get_records
    (skipn 12 (query_header ++ example_com ++ [0; 15; 0; 1])) example_zones =
    Raise KeyError /\
  Handler.build_response
    (query_header ++ example_com ++ [0; 15; 0; 1]) example_zones =
    Raise KeyError.
Proof.
  apply (other_qtype_raises
           (query_header ++ example_com ++ [0; 15; 0; 1]) example_zones).
  - vm_compute. discriminate.
  - intros name zone Hz. unfold example_zones in Hz.
    apply lookup_singleton_Some in Hz as [_ <-]. reflexivity.
Defined.

(** X6: the response to an address query for a name of the zone table.
    For a 12-byte header whose third byte has the bits 1 to 4 clear, a name
    of labels free of zero bytes, the QTYPE [00 01] and any bytes after it,
    the response is the header of [build_header], the name followed by
    [00 01 00 01], and the answers of the records stored under the tag [a]
    of the zone whose origin is the dot-joined labels and the empty label. *)
Theorem address_query_response
    (t1 t2 f1 : Z) (hrest : list Z) (labels : list (list Z)) (rest : list Z)
    (zones : gmap string (gmap string (list Record_)))
    (zone : gmap string (list Record_)) (records : list Record_)
    (answers : list Z) :
  is_byte f1 ->
  Z.land f1 0x1E = 0 ->
  length hrest = 9%nat ->
  Forall plain_label labels ->
  zones !! Py.join "." (map label_str labels ++ [""]) = Some zone ->
  zone !! "a" = Some records ->
  Z.of_nat (length records) < 65536 ->
  Handler.build_answers records "a" "IN" = OK answers ->
  Handler.build_response
    (t1 :: t2 :: f1 :: hrest ++ qname_wire labels ++ [0; 1] ++ rest) zones =
  OK ([t1; t2; 0x84; 0x00; 0; 1;
       Z.of_nat (length records) / 256; Z.of_nat (length records) mod 256;
       0; 0; 0; 0] ++
      qname_wire labels ++ [0; 1; 0; 1] ++ answers).
Proof.
  intros Hf Hbits Hlen Hl Hzone Hrecs Hn Hans.
  unfold Handler.build_response.
  change (skipn 12 (t1 :: t2 :: f1 :: hrest ++ qname_wire labels ++ [0; 1] ++ rest))
    with (skipn 9 (hrest ++ qname_wire labels ++ 0 :: 1 :: rest)).
  rewrite <- Hlen, drop_app_length.
  unfold Handler.get_records.
  rewrite get_domain_and_QTYPE_question by assumption.
  change (firstn 2 (0 :: 1 :: rest)) with [0; 1].
  change (Py.to_bytes 1 2) with (OK [0; 1]). cbn [bind].
  destruct (decide ([0; 1] = [0; 1])) as [_|Hne]; [|congruence].
  cbv beta iota zeta.
  unfold Zone.get_zone_by_domain, getitem at 2. rewrite Hzone.
  unfold getitem. rewrite Hrecs. cbn [bind].
  rewrite build_header_eval by assumption. rewrite Hbits.
  change (0 =? 0) with true. cbn iota.
  destruct (Z.ltb_spec (Z.of_nat (length records)) 65536) as [_|?]; [|lia].
  cbn [bind]. unfold Handler.build_queries.
  rewrite name_loop_question by assumption. cbn [bind].
  change (String.eqb "a" "a") with true. cbn iota.
  change (Py.to_bytes 1 2) with (OK [0; 1]). cbn [bind].
  rewrite Hans. cbn [bind]. rewrite <- !app_assoc. reflexivity.
Qed.

Lemma address_query_response_witness :
  Handler.build_response
    (171 :: 205 :: 1 :: [0; 0; 1; 0; 0; 0; 0; 0; 0] ++
     qname_wire [[119; 119; 119]] ++ [0; 1] ++ [0; 1])
    {[ "www." := {[ "a" := [mkRecord 60 "10.0.0.1"] ]} ]} =
  OK ([171; 205; 0x84; 0x00; 0; 1; 1 / 256; 1 mod 256; 0; 0; 0; 0] ++
      qname_wire [[119; 119; 119]] ++ [0; 1; 0; 1] ++
      [192; 12; 0; 1; 0; 1; 0; 0; 0; 60; 0; 4; 10; 0; 0; 1]).
Proof.
  apply (address_query_response 171 205 1 [0; 0; 1; 0; 0; 0; 0; 0; 0]
           [[119; 119; 119]] [0; 1]
           {[ "www." := {[ "a" := [mkRecord 60 "10.0.0.1"] ]} ]}
           {[ "a" := [mkRecord 60 "10.0.0.1"] ]}
           [mkRecord 60 "10.0.0.1"]).
  - unfold is_byte. lia.
  - reflexivity.
  - reflexivity.
  - repeat constructor; simpl; lia.
  - vm_compute. reflexivity.
  - vm_compute. reflexivity.
  - simpl. lia.
  - vm_compute. reflexivity.
Defined.

(** ** The decoder on arbitrary buffers *)

Lemma decode_loop_no_zero (data : list Z) :
  forall st : Handler.decoder,
    Forall (fun b => b <> 0) data ->
    Handler.QNAME_length (Handler.decode_loop data st) =
    Handler.QNAME_length st + Z.of_nat (length data).
Proof.
  induction data as [|b data IH]; intros st Hnz.
  - simpl. lia.
  - apply Forall_cons in Hnz as [Hb Hnz]. destruct st as [dom s cc q app exp].
    cbn [Handler.decode_loop].
    destruct (Z.eqb_spec b 0) as [?|_]; [contradiction|].
    destruct (app =? 1).
    + cbn [negb]. destruct (cc + 1 =? exp);
        rewrite IH by assumption; cbn [Handler.QNAME_length length];
        lia.
    + rewrite IH by assumption. cbn [Handler.QNAME_length length]. lia.
Qed.

(** X7: a buffer without a zero byte, whatever its length bytes say, is
    read to its end without an error, and the QTYPE the decoder returns is
    empty. *)
Theorem no_terminator_empty_qtype (data : list Z) :
  Forall (fun b => b <> 0) data ->
  snd (Handler.get_domain_and_QTYPE data) = [].
Proof.
  intros Hnz. unfold Handler.get_domain_and_QTYPE. cbn [snd].
  rewrite decode_loop_no_zero by assumption.
  cbn [Handler.decoder_init Handler.QNAME_length].
  rewrite Z.add_0_l, Nat2Z.id. unfold Py.slice.
  now rewrite drop_all, take_nil.
Qed.

Lemma no_terminator_empty_qtype_witness :
  snd (Handler.get_domain_and_QTYPE [1; 97; 2; 98; 99; 7; 1]) = [].
Proof.
  apply (no_terminator_empty_qtype [1; 97; 2; 98; 99; 7; 1]).
  repeat constructor; discriminate.
Defined.

Lemma ord_range (c : ascii) : 0 <= Py.ord c < 256.
Proof.
  unfold Py.ord. pose proof (N_ascii_bounded c). lia.
Qed.

Lemma chr_ord (c : ascii) : Py.chr (Py.ord c) = c.
Proof.
  unfold Py.chr, Py.ord. rewrite N2Z.id. apply ascii_N_embedding.
Qed.

Lemma str_bytes_app (s t : string) :
  str_bytes (s ++ t)%string = str_bytes s ++ str_bytes t.
Proof.
  induction s as [|c s IH]; [reflexivity|].
  rewrite str_app_cons. cbn [str_bytes app]. now rewrite IH.
Qed.

Lemma label_str_bytes (s : string) : label_str (str_bytes s) = s.
Proof.
  induction s as [|c s IH]; [reflexivity|].
  cbn [str_bytes label_str]. now rewrite chr_ord, IH.
Qed.

Lemma str_bytes_length (s : string) : length (str_bytes s) = String.length s.
Proof. induction s as [|c s IH]; simpl; [reflexivity | now rewrite IH]. Qed.

(** The labels collected so far and the label being read hold no NUL: the
    loop adds a character only under [if byte != 0]. *)
Lemma decode_loop_nul_free (data : list Z) :
  forall st : Handler.decoder,
    Forall is_byte data ->
    Forall nul_free (Handler.domain st) ->
    nul_free (Handler.domain_string st) ->
    Forall nul_free (Handler.domain (Handler.decode_loop data st)).
Proof.
  induction data as [|b data IH]; intros st Hb Hdom Hstr; [exact Hdom|].
  apply Forall_cons in Hb as [Hb Hdata]. destruct st as [dom s cc q app exp].
  cbn [Handler.domain Handler.domain_string] in Hdom, Hstr.
  assert (Hnil : nul_free "") by constructor.
  assert (Hs' : nul_free (if negb (b =? 0)
                          then (s ++ String (Py.chr b) "")%string else s)).
  { destruct (Z.eqb_spec b 0) as [?|Hnz]; [exact Hstr|]. cbn [negb].
    unfold nul_free. rewrite str_bytes_app. apply Forall_app. split; [exact Hstr|].
    cbn [str_bytes]. rewrite ord_chr by exact Hb. repeat constructor. exact Hnz. }
  cbn [Handler.decode_loop]. destruct (app =? 1).
  - destruct (cc + 1 =? exp); destruct (b =? 0);
      cbn [negb Handler.domain] in *;
      try (apply IH; cbn [Handler.domain Handler.domain_string]);
      repeat (apply Forall_app; split); auto.
  - apply IH; assumption.
Qed.

(** X8: no label that the decoder returns holds a NUL character, whatever
    bytes the buffer holds. *)
Theorem decoded_labels_nul_free (data : list Z) :
  Forall is_byte data ->
  Forall (fun label => Forall (fun b => b <> 0) (str_bytes label))
    (fst (Handler.get_domain_and_QTYPE data)).
Proof.
  intros Hb. unfold Handler.get_domain_and_QTYPE. cbn [fst].
  apply (decode_loop_nul_free data Handler.decoder_init Hb); constructor.
Qed.

Lemma decoded_labels_nul_free_witness :
  Forall (fun label => Forall (fun b => b <> 0) (str_bytes label))
    (fst (Handler.get_domain_and_QTYPE [3; 97; 0; 98; 0; 0; 1])).
Proof.
  apply (decoded_labels_nul_free [3; 97; 0; 98; 0; 0; 1]).
  unfold is_byte. repeat constructor; lia.
Defined.

(** ** The question section *)

Lemma chars_bytes_ok (part : string) :
  Handler.chars_bytes part = OK (str_bytes part).
Proof.
  induction part as [|c part IH]; [reflexivity|].
  cbn [Handler.chars_bytes str_bytes].
  rewrite to_bytes_byte by apply ord_range. cbn [bind].
  rewrite IH. reflexivity.
Qed.

Lemma name_loop_short (domain : list string) :
  forall Queries : list Z,
    Forall (fun part => (String.length part <= 255)%nat) domain ->
    Handler.name_loop domain Queries =
    OK (Queries ++
        concat (map (fun part => Py.len part :: str_bytes part) domain)).
Proof.
  induction domain as [|part domain IH]; intros Queries Hd.
  - simpl. now rewrite app_nil_r.
  - apply Forall_cons in Hd as [Hp Hd]. cbn [Handler.name_loop].
    rewrite to_bytes_byte by (unfold Py.len; lia). cbn [bind].
    rewrite chars_bytes_ok. cbn [bind]. rewrite IH by assumption.
    cbn [map concat app]. now rewrite <- !app_assoc.
Qed.

Lemma name_loop_long (domain : list string) (part : string) :
  forall Queries : list Z,
    In part domain ->
    (255 < String.length part)%nat ->
    Handler.name_loop domain Queries = Raise OverflowError.
Proof.
  induction domain as [|p domain IH]; intros Queries Hin Hlong;
    [destruct Hin|].
  cbn [Handler.name_loop].
  destruct (Nat.le_gt_cases (String.length p) 255) as [Hp|Hp].
  - rewrite to_bytes_byte by (unfold Py.len; lia). cbn [bind].
    rewrite chars_bytes_ok. cbn [bind].
    destruct Hin as [->|Hin]; [lia|]. now apply IH.
  - unfold Py.to_bytes, Py.len.
    destruct (Z.ltb_spec (Z.of_nat (String.length p)) 0) as [?|_]; [lia|].
    change (256 ^ Z.of_nat 1) with 256.
    destruct (Z.leb_spec 256 (Z.of_nat (String.length p))) as [_|?]; [|lia].
    reflexivity.
Qed.

(** X9: [build_queries] on labels of at most 255 characters writes, for
    each label, its length and its characters, then [00 01] when the type
    tag is [a] and nothing when it is not, then [00 01]. *)
Theorem build_queries_bytes (domain : list string) (qtype : string) :
  Forall (fun part => (String.length part <= 255)%nat) domain ->
  Handler.build_queries domain qtype =
  OK (concat (map (fun part => Py.len part :: str_bytes part) domain) ++
      (if String.eqb qtype "a" then [0; 1] else []) ++ [0; 1]).
Proof.
  intros Hd. unfold Handler.build_queries.
  rewrite name_loop_short by assumption. cbn [bind app].
  destruct (String.eqb qtype "a"); reflexivity.
Qed.

Lemma build_queries_bytes_witness :
  Handler.build_queries ["example"; "com"; ""] "" =
  OK (concat (map (fun part => Py.len part :: str_bytes part)
                ["example"; "com"; ""]) ++
      (if String.eqb "" "a" then [0; 1] else []) ++ [0; 1]).
Proof.
  apply (build_queries_bytes ["example"; "com"; ""] "").
  repeat constructor; simpl; lia.
Defined.

(** X10: [build_queries] raises [OverflowError] as soon as one label has
    more than 255 characters. *)
Theorem build_queries_long_label
    (domain : list string) (qtype part : string) :
  In part domain ->
  (255 < String.length part)%nat ->
  Handler.build_queries domain qtype = Raise OverflowError.
Proof.
  intros Hin Hlong. unfold Handler.build_queries.
  now rewrite (name_loop_long domain part [] Hin Hlong).
Qed.

Lemma build_queries_long_label_witness :
  Handler.build_queries ["www"; label_256; ""] "a" = Raise OverflowError.
Proof.
  apply (build_queries_long_label ["www"; label_256; ""] "a" label_256).
  - right. left. reflexivity.
  - vm_compute. lia.
Defined.

(** X11: the question section that [build_queries] writes for labels of 1
    to 255 characters other than NUL, followed by the empty label, with the
    type tag [a], is decoded by [get_domain_and_QTYPE] into the same labels
    and the QTYPE [00 01]. *)
Theorem question_decodes_back (parts : list string) :
  Forall plain_part parts ->
  exists question : list Z,
    Handler.build_queries (parts ++ [""]) "a" = OK question /\
    Handler.get_domain_and_QTYPE question = (parts ++ [""], [0; 1]).
Proof.
  intros Hp.
  assert (Hlabels : Forall plain_label (map str_bytes parts)).
  { apply Forall_map. eapply Forall_impl; [exact Hp|].
    intros s [Hlen Hnz]. split; [now rewrite str_bytes_length|].
    clear Hlen. induction s as [|c s IH]; [constructor|].
    cbn [str_bytes] in *. apply Forall_cons in Hnz as [Hc Hnz].
    constructor; [pose proof (ord_range c); lia | now apply IH]. }
  assert (Hparts : map label_str (map str_bytes parts) = parts).
  { rewrite map_map. rewrite <- (map_id parts) at 2.
    apply map_ext. intros s. apply label_str_bytes. }
  exists (qname_wire (map str_bytes parts) ++ [0; 1; 0; 1]).
  unfold Handler.build_queries. rewrite <- Hparts at 1.
  rewrite name_loop_question by assumption. split; [reflexivity|].
  change [0; 1; 0; 1] with (0 :: [1; 0; 1]).
  rewrite get_domain_and_QTYPE_question by assumption.
  now rewrite Hparts.
Qed.

Lemma question_decodes_back_witness :
  exists question : list Z,
    Handler.build_queries (["example"; "com"] ++ [""]) "a" = OK question /\
    Handler.get_domain_and_QTYPE question =
      (["example"; "com"] ++ [""], [0; 1]).
Proof.
  apply (question_decodes_back ["example"; "com"]).
  unfold plain_part. repeat constructor; simpl; try lia; discriminate.
Defined.

(** ** Answer blocks, record by record *)

Lemma address_bytes_length (parts : list string) (address : list Z) :
  Handler.address_bytes parts = OK address -> length address = length parts.
Proof.
  revert address. induction parts as [|part parts IH]; intros address H.
  - injection H as <-. reflexivity.
  - cbn [Handler.address_bytes] in H. do 3 bind_inv H. injection H as <-.
    match goal with
    | Hb : Py.to_bytes _ 1 = OK _ |- _ => apply to_bytes_length in Hb
    end.
    rewrite length_app. cbn [length]. rewrite (IH _ ltac:(eassumption)). lia.
Qed.

(** X12: an answer block of an address query starts with
    [C0 0C 00 01 00 01], carries the RDLENGTH [00 04] at its bytes 10 and
    11 whatever the record, and holds after its 12 fixed bytes one byte for
    each dot-separated part of the value, four or not. *)
Theorem answer_block_shape (record : Record_) (block : list Z) :
  Handler.answer_block record "a" "IN" = OK block ->
  firstn 6 block = [0xC0; 0x0C; 0; 1; 0; 1] /\
  Py.slice block 10 12 = [0; 4] /\
  length block = (12 + length (Py.split "." (value record)))%nat.
Proof.
  unfold Handler.answer_block. cbv zeta.
  change (String.eqb "a" "a") with true. change (String.eqb "IN" "IN") with true.
  cbn iota. change (Py.to_bytes 1 2) with (OK [0; 1]).
  change (Py.to_bytes 4 2) with (OK [0; 4]). cbn [bind].
  intros H. do 2 bind_inv H. injection H as <-.
  match goal with
  | Ht : Py.to_bytes _ 4 = OK ?t |- _ =>
      apply to_bytes_length in Ht;
      destruct t as [|x1 [|x2 [|x3 [|x4 [|? ?]]]]]; try discriminate Ht
  end.
  match goal with
  | Ha : bind (Handler.address_bytes _) _ = OK _ |- _ =>
      bind_inv Ha; injection Ha as <-
  end.
  match goal with
  | Ha : Handler.address_bytes _ = OK _ |- _ =>
      apply address_bytes_length in Ha; rename Ha into Hlen
  end.
  repeat split. cbn [app length]. rewrite Hlen. reflexivity.
Qed.

Lemma answer_block_shape_witness :
  firstn 6 [192; 12; 0; 1; 0; 1; 0; 0; 0; 60; 0; 4; 10; 0; 1] =
    [0xC0; 0x0C; 0; 1; 0; 1] /\
  Py.slice [192; 12; 0; 1; 0; 1; 0; 0; 0; 60; 0; 4; 10; 0; 1] 10 12 = [0; 4] /\
  length [192; 12; 0; 1; 0; 1; 0; 0; 0; 60; 0; 4; 10; 0; 1] =
    (12 + length (Py.split "." (value (mkRecord 60 "10.0.1"))))%nat.
Proof.
  apply (answer_block_shape (mkRecord 60 "10.0.1")).
  vm_compute. reflexivity.
Defined.

(** X13: a record whose [ttl] is negative or at least 2^32 makes its answer
    block raise [OverflowError], for any type and class tag, and makes
    [build_answers] raise for every record list that holds it. *)
Theorem ttl_out_of_range_raises
    (record : Record_) (qtype qclass : string) :
  ttl record < 0 \/ 2 ^ 32 <= ttl record ->
  Handler.answer_block record qtype qclass = Raise OverflowError /\
  forall records : list Record_,
    In record records ->
    exists e, Handler.build_answers records qtype qclass = Raise e.
Proof.
  intros Httl.
  assert (Hblock : Handler.answer_block record qtype qclass =
                   Raise OverflowError).
  { unfold Handler.answer_block. cbv zeta.
    change (Py.to_bytes 1 2) with (OK [0; 1]).
    assert (Ht : Py.to_bytes (ttl record) 4 = Raise OverflowError).
    { unfold Py.to_bytes. destruct (Z.ltb_spec (ttl record) 0); [reflexivity|].
      change (256 ^ Z.of_nat 4) with (2 ^ 32).
      destruct (Z.leb_spec (2 ^ 32) (ttl record)); [reflexivity | lia]. }
    rewrite Ht.
    destruct (String.eqb qtype "a"); destruct (String.eqb qclass "IN");
      reflexivity. }
  split; [exact Hblock|]. intros records Hin. unfold Handler.build_answers.
  eapply answers_loop_raise; [exact Hin | eexists; exact Hblock].
Qed.

Lemma ttl_out_of_range_raises_witness :
  Handler.answer_block (mkRecord 4294967296 "10.0.0.1") "a" "IN" =
    Raise OverflowError /\
  forall records : list Record_,
    In (mkRecord 4294967296 "10.0.0.1") records ->
    exists e, Handler.build_answers records "a" "IN" = Raise e.
Proof.
  apply (ttl_out_of_range_raises (mkRecord 4294967296 "10.0.0.1") "a" "IN").
  right. simpl. lia.
Defined.

Lemma split_no_dot (s : string) : no_dot s = true -> Py.split "." s = [s].
Proof.
  induction s as [|c s IH]; [reflexivity|]. cbn [no_dot Py.split].
  intros H. apply andb_true_iff in H as [Hc Hs].
  apply negb_true_iff in Hc. rewrite Hc, (IH Hs). reflexivity.
Qed.

Lemma split_dot_app (s t : string) :
  no_dot s = true ->
  Py.split "." (s ++ String "." t)%string = s :: Py.split "." t.
Proof.
  induction s as [|c s IH]; [reflexivity|]. cbn [no_dot].
  intros H. apply andb_true_iff in H as [Hc Hs].
  apply negb_true_iff in Hc. rewrite str_app_cons. cbn [Py.split].
  rewrite Hc, (IH Hs). reflexivity.
Qed.

(** The decimal form of a byte has no dot and reads back as the byte. *)
Lemma str_byte (a : Z) :
  is_byte a ->
  no_dot (Py.str a) = true /\ Py.int_of_str (Py.str a) 10 = OK a.
Proof.
  intros Ha.
  assert (Hall : forallb
            (fun a => no_dot (Py.str a) &&
                      bool_decide (Py.int_of_str (Py.str a) 10 = OK a))
            (seqZ 0 256) = true) by (vm_compute; reflexivity).
  rewrite forallb_forall in Hall. specialize (Hall a).
  rewrite andb_true_iff, bool_decide_eq_true in Hall. apply Hall.
  apply list_elem_of_In, elem_of_seqZ. unfold is_byte in Ha. lia.
Qed.

(** X14: a record whose [ttl] fits in 32 bits and whose value is the
    dotted decimal form of four bytes is encoded, for an address query, as
    the 16 bytes [C0 0C 00 01 00 01], the [ttl] on four bytes, [00 04] and
    the four bytes. *)
Theorem answer_block_dotted_quad (t a b c d : Z) :
  0 <= t < 2 ^ 32 ->
  is_byte a -> is_byte b -> is_byte c -> is_byte d ->
  Handler.answer_block (mkRecord t (dotted_quad a b c d)) "a" "IN" =
  OK ([0xC0; 0x0C; 0; 1; 0; 1] ++ Py.be_bytes 4 t ++ [0; 4; a; b; c; d]).
Proof.
  intros Ht Ha Hb Hc Hd.
  destruct (str_byte a Ha) as [Ha1 Ha2]. destruct (str_byte b Hb) as [Hb1 Hb2].
  destruct (str_byte c Hc) as [Hc1 Hc2]. destruct (str_byte d Hd) as [Hd1 Hd2].
  unfold Handler.answer_block. cbv zeta. cbn [ttl value].
  change (String.eqb "a" "a") with true. change (String.eqb "IN" "IN") with true.
  cbn iota. change (Py.to_bytes 1 2) with (OK [0; 1]).
  change (Py.to_bytes 4 2) with (OK [0; 4]). cbn [bind].
  rewrite to_bytes_ok by (change (256 ^ Z.of_nat 4) with (2 ^ 32); lia).
  cbn [bind].
  change (dotted_quad a b c d)
    with (Py.str a ++ String "."
            (Py.str b ++ String "." (Py.str c ++ String "." (Py.str d))))%string.
  rewrite (split_dot_app (Py.str a)) by assumption.
  rewrite (split_dot_app (Py.str b)) by assumption.
  rewrite (split_dot_app (Py.str c)) by assumption.
  rewrite (split_no_dot (Py.str d)) by assumption.
  cbn [Handler.address_bytes]. rewrite Ha2, Hb2, Hc2, Hd2. cbn [bind].
  rewrite !to_bytes_byte by assumption. cbn [bind app].
  reflexivity.
Qed.

Lemma answer_block_dotted_quad_witness :
  Handler.answer_block (mkRecord 300 (dotted_quad 93 184 216 34)) "a" "IN" =
  OK ([0xC0; 0x0C; 0; 1; 0; 1] ++ Py.be_bytes 4 300 ++
      [0; 4; 93; 184; 216; 34]).
Proof.
  apply (answer_block_dotted_quad 300 93 184 216 34);
    unfold is_byte; lia.
Defined.

(** ** Loading the zone table *)

Section ZoneTable.

Variable read_json : string -> ZoneData.



Lemma load_loop_other (zone_files : list string) (name : string) :
  forall json_zone table,
    load_loop read_json zone_files json_zone = OK table ->
    Forall (fun zone => origin (read_json zone) <> Some name) zone_files ->
    table !! name = json_zone !! name.
Proof.
  induction zone_files as [|z zone_files IH]; intros json_zone table H Hall.
  - injection H as <-. reflexivity.
  - apply Forall_cons in Hall as [Hz Hall]. cbn [load_loop] in H.
    destruct (origin (read_json z)) as [n|]; [|discriminate].
    cbn [bind] in H. rewrite (IH _ _ H Hall).
    apply lookup_insert_ne. congruence.
Qed.

Lemma load_loop_last (before after : list string) (zone name : string) :
  forall json_zone table,
    load_loop read_json (before ++ zone :: after) json_zone = OK table ->
    origin (read_json zone) = Some name ->
    Forall (fun z => origin (read_json z) <> Some name) after ->
    table !! name = Some (rrsets (read_json zone)).
Proof.
  induction before as [|z before IH]; intros json_zone table H Hname Hafter.
  - cbn [app load_loop] in H. rewrite Hname in H. cbn [bind] in H.
    rewrite (load_loop_other _ _ _ _ H Hafter). apply lookup_insert_eq.
  - cbn [app load_loop] in H.
    destruct (origin (read_json z)) as [n|]; [|discriminate].
    cbn [bind] in H. eapply IH; eassumption.
Qed.


(** X16: in a loaded table the zone found for a question is the one of the
    last file whose origin is the dot-joined label list: a later file of
    the same origin replaces an earlier one. *)
Theorem load_then_lookup
    (before after : list string) (zone : string) (domain : list string)
    (table : gmap string (gmap string (list Record_))) :
  load_zone_data read_json (before ++ zone :: after) = OK table ->
  origin (read_json zone) = Some (Py.join "." domain) ->
  Forall (fun z => origin (read_json z) <> Some (Py.join "." domain)) after ->
  Zone.get_zone_by_domain table domain = rrsets (read_json zone).
Proof.
  intros Hload Hname Hafter. unfold Zone.get_zone_by_domain, getitem.
  now rewrite (load_loop_last _ _ _ _ _ _ Hload Hname Hafter).
Qed.

(** X17: in a loaded table no zone is found for a question whose
    dot-joined label list is the origin of no file: the lookup gives the
    empty zone. *)
Theorem load_then_miss
    (zone_files : list string) (domain : list string)
    (table : gmap string (gmap string (list Record_))) :
  load_zone_data read_json zone_files = OK table ->
  Forall (fun z => origin (read_json z) <> Some (Py.join "." domain))
    zone_files ->
  table !! Py.join "." domain = None /\
  Zone.get_zone_by_domain table domain = ∅.
Proof.
  intros Hload Hall.
  assert (Hnone : table !! Py.join "." domain = None).
  { rewrite (load_loop_other _ _ _ _ Hload Hall). apply lookup_empty. }
  split; [exact Hnone|]. unfold Zone.get_zone_by_domain, getitem.
  now rewrite Hnone.
Qed.

End ZoneTable.

Lemma load_then_lookup_witness :
  Zone.get_zone_by_domain
    {[ "example.com." := {[ "a" := [mkRecord 30 "10.0.0.2"] ]} ]}
    ["example"; "com"; ""] =
  rrsets (example_fs "zones/b.zone").
Proof.
  apply (load_then_lookup example_fs ["zones/a.zone"] [] "zones/b.zone").
  - vm_compute. reflexivity.
  - reflexivity.
  - constructor.
Defined.

Lemma load_then_miss_witness :
  ({[ "example.com." := {[ "a" := [mkRecord 30 "10.0.0.2"] ]} ]}
     : gmap string (gmap string (list Record_)))
    !! Py.join "." ["example"; "com"] = None /\
  Zone.get_zone_by_domain
    {[ "example.com." := {[ "a" := [mkRecord 30 "10.0.0.2"] ]} ]}
    ["example"; "com"] = ∅.
Proof.
  apply (load_then_miss example_fs ["zones/a.zone"; "zones/b.zone"]).
  - vm_compute. reflexivity.
  - repeat constructor; discriminate.
Defined.
